(** * datature_hub.hub: a shallow embedding of the model loader

    The Python module [src/datature_hub/hub.py] resolves a model key at the
    Datature Hub registry, downloads the packaged model, verifies its
    SHA-256 digest, unpacks it into a cache directory and reads the label
    map and the pipeline configuration back from that directory.

    The embedding threads an explicit world (process configuration, file
    system, allocated handles, trace of external calls) through a small
    exception monad.  External collaborators (the HTTP transport, hashlib,
    zipfile, the TensorFlow loader) are parameters of the development.

    Not modelled: what the module writes to stderr (progress lines and the
    warning about a needless secret), the floating-point arithmetic of the
    progress bar apart from its division by zero, and the image helpers
    ([load_image], [load_image_with_model_dimensions]), which need PIL,
    TensorFlow and a module that is not part of this file. *)

From Stdlib Require Import ZArith NArith Ascii String List Lia.
From Stdlib Require Strings.Byte.
From stdpp Require Import base option list gmap strings.

Local Open Scope Z_scope.

(** ** Python string primitives

    Text is handled at the level of single-byte characters: a [str] is a
    [list ascii].  Only the methods used by the loader are modelled. *)
Module Py.

Definition str := list ascii.

Definition of_string (s : string) : str := list_ascii_of_string s.
Definition to_string (l : str) : string := string_of_list_ascii l.

(** [str.isspace] restricted to code points below 128: TAB, LF, VT, FF,
    CR, the four separators FS..US and the space. *)
Definition isspace (c : ascii) : bool :=
  let n := N_of_ascii c in
  ((9 <=? n) && (n <=? 13) || (28 <=? n) && (n <=? 32))%N.

Definition isdigit (c : ascii) : bool :=
  let n := N_of_ascii c in ((48 <=? n) && (n <=? 57))%N.

Definition digit_value (c : ascii) : Z := Z.of_N (N_of_ascii c) - 48.

Definition ascii_eqb (a b : ascii) : bool := Ascii.eqb a b.



(** [s.split(sep)] for a separator of one character: [cur] holds, in
    reverse, the characters of the field being read. *)
Fixpoint split_from (sep : ascii) (cur : str) (s : str) : list str :=
  match s with
  | [] => [rev cur]
  | c :: s' =>
      if ascii_eqb c sep then rev cur :: split_from sep [] s'
      else split_from sep (c :: cur) s'
  end.

Definition split (sep : ascii) (s : str) : list str := split_from sep [] s.


Fixpoint lstrip_with (f : ascii -> bool) (s : str) : str :=
  match s with
  | [] => []
  | c :: s' => if f c then lstrip_with f s' else s
  end.

Definition rstrip_with (f : ascii -> bool) (s : str) : str :=
  rev (lstrip_with f (rev s)).

Definition strip_with (f : ascii -> bool) (s : str) : str :=
  rstrip_with f (lstrip_with f s).

(** [s.strip()] *)
Definition strip (s : str) : str := strip_with isspace s.


(** Digits of an integer literal as [int] reads them: digits, with single
    underscores allowed between two digits.  [prev] tells whether the
    previous character was a digit. *)
Fixpoint int_digits (acc : Z) (prev : bool) (s : str) : option Z :=
  match s with
  | [] => if prev then Some acc else None
  | c :: s' =>
      if isdigit c then int_digits (10 * acc + digit_value c) true s'
      else if ascii_eqb c "_" then
        (if prev then int_digits acc false s' else None)
      else None
  end.

(** [int(s)] in base 10: surrounding whitespace is dropped, one sign is
    allowed; [None] stands for [ValueError]. *)
Definition int (s : str) : option Z :=
  match strip s with
  | [] => None
  | c :: s' =>
      if ascii_eqb c "-" then Z.opp <$> int_digits 0 false s'
      else if ascii_eqb c "+" then int_digits 0 false s'
      else int_digits 0 false (c :: s')
  end.




End Py.

(** ** Values shared by the whole module *)

Definition bytes := list Byte.byte.

(** Reading a file in text mode: every byte is one character. *)
Definition decode (b : bytes) : Py.str := map ascii_of_byte b.
Definition encode (s : Py.str) : bytes := map byte_of_ascii s.

(** A path is the list of its components below the root; [os.path.join]
    with a single file name appends one component. *)
Abbreviation path := (list string).

Definition path_join (dir : path) (name : string) : path := dir ++ [name].

(** [os.path.dirname] *)
Definition dirname (p : path) : path := removelast p.

(** What [response.json()] can return. *)
#[local] Unset Elimination Schemes.
Inductive json :=
| JNull
| JBool (b : bool)
| JNum (n : Z)
| JStr (s : string)
| JArr (items : list json)
| JObj (fields : list (string * json)).
#[local] Set Elimination Schemes.

(** [class ModelType(enum.Enum)]: one member. *)
Inductive ModelType := TF.

(** The argument [model_type] of [download_model] is not checked by Python:
    a caller can pass a member of [ModelType] or any other object, of which
    only the text [str(model_type)] is kept. *)
Inductive model_type_arg :=
| Member (m : ModelType)
| OtherObject (shown : string).

Inductive runtime_message :=
| NotReadyToDownload
    (* "Model is not ready to download." *)
| ChecksumMismatch (file_checksum : string) (expected : json).
    (* "Checksum of downloaded file (..) does not match the expected  value (..)" *)

Inductive value_message :=
| InvalidLiteral (text : Py.str)
| InvalidModelType (arg : model_type_arg).
    (* f"Invalid model type {model_type}." *)

(** The exceptions the module raises or lets through; all of them derive
    from [Exception]. *)
Inductive exn :=
| HTTPError (status_code : Z)
| RequestException (what : string)
| JSONDecodeError
| KeyError (key : string)
| TypeError
| RuntimeError (msg : runtime_message)
| ValueError (msg : value_message)
| ZeroDivisionError
| StopIteration
| FileNotFoundError (msg : string)
| FileExistsError
| NotADirectoryError
| IsADirectoryError
| BadZipFile
| LoaderError (what : string).

(** ** The file system *)
Module FS.

Inductive node :=
| Dir
| File (content : bytes).

(** A file system maps the paths that exist to what they hold; the root
    is not stored and always is a directory. *)
Definition stat (fs : gmap path node) (p : path) : option node :=
  match p with
  | [] => Some Dir
  | _ => fs !! p
  end.

(** [os.path.exists] *)
Definition exists_ (fs : gmap path node) (p : path) : bool :=
  match stat fs p with Some _ => true | None => false end.

(** [os.path.isdir] *)
Definition isdir (fs : gmap path node) (p : path) : bool :=
  match stat fs p with Some Dir => true | _ => false end.

(** [os.mkdir] *)
Definition mkdir (p : path) (fs : gmap path node) : exn + gmap path node :=
  match stat fs p with
  | Some _ => inl FileExistsError
  | None =>
      match stat fs (dirname p) with
      | Some Dir => inr (<[p := Dir]> fs)
      | Some (File _) => inl NotADirectoryError
      | None => inl (FileNotFoundError "")
      end
  end.

(** Creation of the components [rest] below the existing directory
    [base], one after the other.  A failure keeps the directories made
    before it. *)
Fixpoint makedirs_from (base rest : path) (fs : gmap path node)
  : option exn * gmap path node :=
  match rest with
  | [] => (None, fs)
  | c :: rest' =>
      let p := base ++ [c] in
      match fs !! p with
      | Some Dir => makedirs_from p rest' fs
      | Some (File _) =>
          (Some (match rest' with [] => FileExistsError | _ => NotADirectoryError end), fs)
      | None => makedirs_from p rest' (<[p := Dir]> fs)
      end
  end.

(** [Path(p).mkdir(parents=True, exist_ok=True)] *)
Definition mkdir_parents_exist_ok (p : path) (fs : gmap path node)
  : option exn * gmap path node :=
  makedirs_from [] p fs.

(** [os.makedirs(p)] as zipfile calls it, on a path that does not exist:
    a file met on the way is reported as [NotADirectoryError]. *)
Definition makedirs (p : path) (fs : gmap path node) : option exn * gmap path node :=
  match makedirs_from [] p fs with
  | (Some _, fs') => (Some NotADirectoryError, fs')
  | (None, fs') => (None, fs')
  end.

(** [open(p, "wb")]: the file is created or truncated. *)
Definition open_wb (p : path) (fs : gmap path node) : exn + gmap path node :=
  match stat fs (dirname p) with
  | None => inl (FileNotFoundError "")
  | Some (File _) => inl NotADirectoryError
  | Some Dir =>
      match stat fs p with
      | Some Dir => inl IsADirectoryError
      | _ => inr (<[p := File []]> fs)
      end
  end.

(** [f.write(data)] on the file opened at [p]. *)
Definition write (p : path) (data : bytes) (fs : gmap path node) : gmap path node :=
  match fs !! p with
  | Some (File c) => <[p := File (c ++ data)]> fs
  | _ => fs
  end.

(** [open(p, "rb").read()] *)
Definition read (p : path) (fs : gmap path node) : exn + bytes :=
  match stat fs p with
  | Some (File c) => inr c
  | Some Dir => inl IsADirectoryError
  | None => inl (FileNotFoundError "")
  end.

(** [os.remove] *)
Definition remove (p : path) (fs : gmap path node) : exn + gmap path node :=
  match stat fs p with
  | Some (File _) => inr (delete p fs)
  | Some Dir => inl IsADirectoryError
  | None => inl (FileNotFoundError "")
  end.

Definition outside (p : path) (entry : path * node) : Prop :=
  ¬ p `prefix_of` entry.1.

#[global] Instance outside_dec p entry : Decision (outside p entry).
Proof. unfold outside. apply _. Defined.

(** [shutil.rmtree(p, ignore_errors=True)]: the subtree of a directory is
    removed; on anything else the call fails and the failure is dropped. *)
Definition rmtree_ignore_errors (p : path) (fs : gmap path node) : gmap path node :=
  match fs !! p with
  | Some Dir => filter (outside p) fs
  | _ => fs
  end.

(** Every stored entry lies in a directory. *)
Definition wf (fs : gmap path node) : Prop :=
  map_Forall (fun p _ => isdir fs (dirname p) = true) fs.

End FS.

(** ** The world the module runs in *)

(** [_ModelURLWithHash]: a named tuple; its fields hold whatever the
    registry's JSON held. *)
Record ModelURLWithHash := {
  url : json;
  checksum : json
}.

(** The attributes of a [HubModel] object. *)
Record HubModel := {
  model_key : string;
  _height_width_cache : option (Z * Z);
  project_secret : option string;
  _model_url_and_hash : ModelURLWithHash;
  model_dir : path
}.

(** The answer to the registry call: its HTTP status and, when the body is
    JSON, the decoded body. *)
Record RegistryResponse := {
  registry_status_code : Z;
  registry_json : option json
}.

(** The answer to the download call.  [stream_error] is a failure of the
    transport met while the body is read, after [content] has arrived. *)
Record DownloadResponse := {
  status_code : Z;
  content_length : option Py.str;
  content : bytes;
  stream_error : option exn
}.

(** One member of a zip archive, its name already split into components. *)
Record ZipMember := {
  filename : path;
  is_dir : bool;
  data : option bytes
}.

(** The collaborators outside the module. *)
Record Env (SavedModel : Type) := {
  (** [Path.home()] *)
  home : path;
  (** [requests.post(endpoint, json=params)] *)
  requests_post : string -> list (string * string) -> exn + RegistryResponse;
  (** [requests.get(url, stream=True)] *)
  requests_get : json -> exn + DownloadResponse;
  (** [hashlib.sha256(data).hexdigest()]; feeding a hash object chunk by
      chunk is the same as feeding it the concatenation. *)
  sha256_hexdigest : bytes -> string;
  (** [zipfile.ZipFile(..)]: the members, or [None] for a bad archive. *)
  zip_members : bytes -> option (list ZipMember);
  (** [tf.saved_model.load(dir)] *)
  saved_model_load : gmap path FS.node -> path -> exn + SavedModel
}.
Arguments home {_} _.
Arguments requests_post {_} _ _ _.
Arguments requests_get {_} _ _.
Arguments sha256_hexdigest {_} _ _.
Arguments zip_members {_} _ _.
Arguments saved_model_load {_} _ _ _.

(** Calls that leave the process. *)
Inductive event :=
| EPost (endpoint : string) (params : list (string * string))
| EGet (target : json)
| EExtract (archive : path) (into : path)
| ESavedModelLoad (dir : path).

Definition is_network (e : event) : bool :=
  match e with
  | EPost _ _ | EGet _ => true
  | _ => false
  end.

Definition is_extract (e : event) : bool :=
  match e with
  | EExtract _ _ => true
  | _ => false
  end.

Record World := {
  (** the module-level dictionary [_config] *)
  config : gmap string string;
  fs : gmap path FS.node;
  (** the [HubModel] objects constructed so far *)
  handles : gmap nat HubModel;
  (** external calls, oldest first *)
  trace : list event
}.

Definition set_config (c : gmap string string) (w : World) : World :=
  {| config := c; fs := fs w; handles := handles w; trace := trace w |}.

Definition set_fs (f : gmap path FS.node) (w : World) : World :=
  {| config := config w; fs := f; handles := handles w; trace := trace w |}.

Definition set_handles (h : gmap nat HubModel) (w : World) : World :=
  {| config := config w; fs := fs w; handles := h; trace := trace w |}.

Definition log (e : event) (w : World) : World :=
  {| config := config w; fs := fs w; handles := handles w; trace := trace w ++ [e] |}.

(** [_config] as the module defines it. *)
Definition initial_config : gmap string string :=
  {[ "hub_endpoint"%string := "https://api.datature.io/hub"%string ]}.

(** ** Computations that may raise *)

Definition M (A : Type) : Type := World -> (exn + A) * World.

Definition ret {A} (x : A) : M A := fun w => (inr x, w).

Definition raise {A} (e : exn) : M A := fun w => (inl e, w).

Definition bind {A B} (m : M A) (k : A -> M B) : M B :=
  fun w =>
    match m w with
    | (inl e, w') => (inl e, w')
    | (inr x, w') => k x w'
    end.

Notation "x <- m ;; k" := (bind m (fun x => k))
  (at level 100, m at next level, right associativity).
Notation "m ;;; k" := (bind m (fun _ => k))
  (at level 100, right associativity).

(** [try: body except Exception as exc: handler] *)
Definition try_except {A} (body : M A) (handler : exn -> M A) : M A :=
  fun w =>
    match body w with
    | (inl e, w') => handler e w'
    | (inr x, w') => (inr x, w')
    end.

Definition lift {A} (r : exn + A) : M A := fun w => (r, w).

Definition get_fs : M (gmap path FS.node) := fun w => (inr (fs w), w).

Definition emit (e : event) : M unit := fun w => (inr tt, log e w).

(** [for x in xs: body x] *)
Fixpoint for_each {A} (xs : list A) (body : A -> M unit) : M unit :=
  match xs with
  | [] => ret tt
  | x :: xs' => body x ;;; for_each xs' body
  end.

(** ** Splitting into chunks *)

(** The first [n] items of [l] and the rest. *)
Fixpoint split_at {A} (n : N) (l : list A) : list A * list A :=
  match l with
  | [] => ([], [])
  | x :: l' =>
      if (n =? 0)%N then ([], l)
      else let '(a, b) := split_at (N.pred n) l' in (x :: a, b)
  end.

(** Successive reads of at most [size] items until nothing is left. *)
Fixpoint chunks_fuel {A} (fuel : nat) (size : N) (l : list A) : list (list A) :=
  match l with
  | [] => []
  | _ :: _ =>
      match fuel with
      | O => [l]
      | S fuel' =>
          let '(a, b) := split_at size l in a :: chunks_fuel fuel' size b
      end
  end.

Definition chunks {A} (size : N) (l : list A) : list (list A) :=
  chunks_fuel (length l) size l.

(** A file-system call that fails without effect or succeeds. *)
Definition fs_try (op : gmap path FS.node -> exn + gmap path FS.node) : M unit :=
  fun w =>
    match op (fs w) with
    | inl e => (inl e, w)
    | inr f => (inr tt, set_fs f w)
    end.

(** A file-system call whose effects stay when it fails. *)
Definition fs_run (op : gmap path FS.node -> option exn * gmap path FS.node) : M unit :=
  fun w =>
    match op (fs w) with
    | (Some e, f) => (inl e, set_fs f w)
    | (None, f) => (inr tt, set_fs f w)
    end.

Definition fs_read (p : path) : M bytes := fun w => (FS.read p (fs w), w).

(** [f.write(data)] on the open file at [p]. *)
Definition put_fs_write (p : path) (data : bytes) : M unit :=
  fun w => (inr tt, set_fs (FS.write p data (fs w)) w).

(** [os.path.exists(p)] *)
Definition path_exists (p : path) : M bool := fun w => (inr (FS.exists_ (fs w) p), w).

(** ** The module *)

(** Values stored in the dictionaries of a label map. *)
Inductive pyval :=
| VInt (n : Z)
| VStr (s : Py.str).

(** [_set_hub_endpoint] *)
Definition _set_hub_endpoint (endpoint : string) : M unit :=
  fun w => (inr tt, set_config (<["hub_endpoint"%string := endpoint]> (config w)) w).

(** [response.raise_for_status()] of requests: statuses 400 to 599 raise
    [HTTPError], every other status passes. *)
Definition raise_for_status (code : Z) : M unit :=
  if (400 <=? code) && (code <? 600) then raise (HTTPError code) else ret tt.

(** [obj[key]] on a decoded JSON value with a string key. *)
Fixpoint assoc (key : string) (fields : list (string * json)) : option json :=
  match fields with
  | [] => None
  | (k, v) :: rest => if String.eqb k key then Some v else assoc key rest
  end.

Definition getitem (obj : json) (key : string) : M json :=
  match obj with
  | JObj fields =>
      match assoc key fields with
      | Some v => ret v
      | None => raise (KeyError key)
      end
  | _ => raise TypeError
  end.

(** [value != text] for a decoded JSON value and a [str]. *)
Definition differs_from (value : json) (text : string) : bool :=
  match value with
  | JStr s => negb (String.eqb s text)
  | _ => true
  end.



(** The dictionary [api_params] of [_get_model_url_and_hash]: the secret is
    sent only when there is one. *)
Definition api_params (model_key : string) (project_secret : option string)
  : list (string * string) :=
  [("modelKey"%string, model_key)] ++
  match project_secret with
  | Some secret => [("projectSecret"%string, secret)]
  | None => []
  end.

Section Hub.

Context {SavedModel : Type} (E : Env SavedModel).

Definition http_post (endpoint : string) (params : list (string * string))
  : M RegistryResponse :=
  fun w => (requests_post E endpoint params, log (EPost endpoint params) w).

Definition http_get (target : json) : M DownloadResponse :=
  fun w => (requests_get E target, log (EGet target) w).

(** [_get_sha256_hash_of_file]: the file is fed to the hash in reads of
    1 MiB.  The progress lines written to stderr are not modelled. *)
Definition _get_sha256_hash_of_file (filepath : path) (progress : bool) : M string :=
  file_to_hash <- fs_read filepath ;;
  let hash_f := foldl (fun fed chunk => fed ++ chunk) [] (chunks (1024 * 1024) file_to_hash) in
  ret (sha256_hexdigest E hash_f).

(** [get_default_hub_dir] *)
Definition get_default_hub_dir : path := path_join (home E) ".dataturehub".

(** [HubModel._get_model_url_and_hash], given the two attributes of
    [self] it reads.  The warning written to stderr is not modelled. *)
Definition _get_model_url_and_hash (model_key : string) (project_secret : option string)
  : M ModelURLWithHash :=
  let api_params := api_params model_key project_secret in
  endpoint <- (fun w => (match config w !! "hub_endpoint"%string with
                         | Some e => inr e
                         | None => inl (KeyError "hub_endpoint")
                         end, w)) ;;
  response <- http_post endpoint api_params ;;
  raise_for_status (registry_status_code response) ;;;
  response_json <- lift (match registry_json response with
                         | Some j => inr j
                         | None => inl JSONDecodeError
                         end) ;;
  status <- getitem response_json "status" ;;
  if differs_from status "ready" then raise (RuntimeError NotReadyToDownload)
  else
    getitem response_json "projectSecretNeeded" ;;;
    signedUrl <- getitem response_json "signedUrl" ;;
    hash <- getitem response_json "hash" ;;
    ret {| url := signedUrl; checksum := hash |}.

(** [HubModel.__init__]: the new object is stored and its address
    returned. *)
Definition __init__ (model_key : string) (project_secret : option string)
    (hub_dir : option path) : M nat :=
  resolved <- _get_model_url_and_hash model_key project_secret ;;
  let self :=
    {| model_key := model_key;
       _height_width_cache := None;
       project_secret := project_secret;
       _model_url_and_hash := resolved;
       model_dir := match hub_dir with
                    | None => path_join get_default_hub_dir model_key
                    | Some dir => path_join dir model_key
                    end |} in
  fun w =>
    let address := fresh (dom (handles w)) in
    (inr address, set_handles (<[address := self]> (handles w)) w).

(** [HubModel._save_and_verify_model].  Of the progress output only the
    division by the announced length, which fails when that length is
    zero, is kept. *)
Definition _save_and_verify_model (self : HubModel) (destination_path : path)
    (progress : bool) : M unit :=
  fs_try (FS.open_wb destination_path) ;;;
  response <- http_get (url (_model_url_and_hash self)) ;;
  raise_for_status (status_code response) ;;;
  match content_length response with
  | None =>
      match stream_error response with
      | Some e => raise e
      | None => put_fs_write destination_path (content response)
      end
  | Some total_length =>
      total <- lift (match Py.int total_length with
                     | Some n => inr n
                     | None => inl (ValueError (InvalidLiteral total_length))
                     end) ;;
      for_each (chunks 4096 (content response))
        (fun data =>
           (if progress && (total =? 0) then raise ZeroDivisionError else ret tt) ;;;
           put_fs_write destination_path data) ;;;
      match stream_error response with
      | Some e => raise e
      | None =>
          file_checksum <- _get_sha256_hash_of_file destination_path progress ;;
          if differs_from (checksum (_model_url_and_hash self)) file_checksum
          then raise (RuntimeError (ChecksumMismatch file_checksum
                                      (checksum (_model_url_and_hash self))))
          else ret tt
      end
  end.

(** One member of [ZipFile.extractall]: the directories above the target
    are made when missing, then the directory or the file itself. *)
Definition extract_member (into : path) (member : ZipMember) : M unit :=
  let targetpath := into ++ filename member in
  let upperdirs := dirname targetpath in
  present <- path_exists upperdirs ;;
  (if present then ret tt else fs_run (FS.makedirs upperdirs)) ;;;
  if is_dir member then
    f <- get_fs ;;
    if FS.isdir f targetpath then ret tt else fs_try (FS.mkdir targetpath)
  else
    match data member with
    | None => raise BadZipFile
    | Some source =>
        fs_try (FS.open_wb targetpath) ;;;
        put_fs_write targetpath source
    end.

(** [with zipfile.ZipFile(archive, "r") as z: z.extractall(into)] *)
Definition extractall (archive into : path) : M unit :=
  packed <- fs_read archive ;;
  match zip_members E packed with
  | None => raise BadZipFile
  | Some members =>
      emit (EExtract archive into) ;;;
      for_each members (extract_member into)
  end.

(** The body of the [try] statement of [download_model]. *)
Definition download_model_body (self : HubModel) (model_type : model_type_arg)
    (progress : bool) : M unit :=
  let model_folder := model_dir self in
  match model_type with
  | Member TF =>
      let model_zip_path := path_join model_folder "model.zip" in
      _save_and_verify_model self model_zip_path progress ;;;
      extractall model_zip_path model_folder ;;;
      fs_try (FS.remove model_zip_path)
  | OtherObject _ => raise (ValueError (InvalidModelType model_type))
  end.

(** [HubModel.download_model] *)
Definition download_model (self : HubModel) (model_type : model_type_arg)
    (progress : bool) : M path :=
  let model_folder := model_dir self in
  fs_run (FS.mkdir_parents_exist_ok model_folder) ;;;
  try_except (download_model_body self model_type progress)
    (fun exc =>
       (fun w => (inr tt, set_fs (FS.rmtree_ignore_errors model_folder (fs w)) w)) ;;;
       raise exc) ;;;
  ret model_folder.

(** [tf.saved_model.load(dir)] *)
Definition tf_saved_model_load (dir : path) : M SavedModel :=
  fun w => (saved_model_load E (fs w) dir, log (ESavedModelLoad dir) w).

(** [HubModel.load_tf_model]; the keyword arguments handed on to the
    TensorFlow loader are part of the loader. *)
Definition load_tf_model (self : HubModel) (force_download : bool) (progress : bool)
  : M SavedModel :=
  let model_folder := model_dir self in
  present <- path_exists model_folder ;;
  (if force_download || negb present
   then download_model self (Member TF) progress ;;; ret tt
   else ret tt) ;;;
  tf_saved_model_load (path_join model_folder "saved_model").


End Hub.

(** The two messages of [get_pipeline_config_dir]; a backslash at the end of
    a line inside a literal joins it to the next line, blanks included. *)
Definition never_downloaded_message (key : string) : string :=
  ("The directory for model key " ++ key ++ " does not exist.")%string.

Definition config_missing_message : string :=
  ("pipeline.config not found in the model key directory. " ++
   "                Try re-downloading the model by " ++
   "                calling load_tf_model with force_download parameter = True.")%string.

(** [HubModel.get_pipeline_config_dir] *)
Definition get_pipeline_config_dir (self : HubModel) : M path :=
  let model_folder := model_dir self in
  present <- path_exists model_folder ;;
  if negb present then raise (FileNotFoundError (never_downloaded_message (model_key self)))
  else
    let pipeline_path := path_join model_folder "pipeline.config" in
    found <- path_exists pipeline_path ;;
    if negb found then raise (FileNotFoundError config_missing_message)
    else ret pipeline_path.

(** ** The text of a label map

    A label-map file as the packaging writes it: lines that do not hold
    the letters [id], and records made of an id line followed by a name
    line. *)
Module LabelFile.


Inductive sign := Unsigned | Plus | Minus.

(** The pieces of the two lines of a record:
    [id_key : id_pad sign digits id_trail] and
    [name_key : name_pad 'name_text' name_trail]. *)
Record entry := {
  id_key : Py.str;
  id_pad : Py.str;
  id_sign : sign;
  id_digits : Py.str;
  id_trail : Py.str;
  name_key : Py.str;
  name_pad : Py.str;
  name_text : Py.str;
  name_trail : Py.str
}.

Inductive item :=
| Other (line : Py.str)
| Entry (e : entry).






(** The number a run of decimal digits writes. *)
Definition digits_value (digits : Py.str) : Z :=
  foldl (fun acc c => 10 * acc + Py.digit_value c) 0 digits.

Definition id_of (e : entry) : Z :=
  match id_sign e with
  | Minus => - digits_value (id_digits e)
  | _ => digits_value (id_digits e)
  end.

(** The records of a file, in the order of the file. *)
Definition records (items : list item) : list (Z * Py.str) :=
  flat_map (fun i => match i with
                     | Other _ => []
                     | Entry e => [(id_of e, name_text e)]
                     end) items.








(** The dictionary of one record. *)
Definition label (i : Z) (n : Py.str) : gmap string pyval :=
  {[ "id"%string := VInt i; "name"%string := VStr n ]}.

(** The dictionary the records stand for; a later record with the same
    id replaces an earlier one. *)
Definition expected (items : list item) : gmap Z (gmap string pyval) :=
  foldl (fun m r => <[r.1 := label r.1 r.2]> m) ∅ (records items).


End LabelFile.

(** ** Properties of computations *)

(** Directories of [f] are still directories in [f']. *)
Definition dirs_kept (f f' : gmap path FS.node) : Prop :=
  forall q, f !! q = Some FS.Dir -> f' !! q = Some FS.Dir.

(** A computation that never removes or replaces a directory. *)
Definition keeps_dirs {A} (m : M A) : Prop :=
  forall w r w', m w = (r, w') -> dirs_kept (fs w) (fs w').

(** A computation that keeps the file system well formed. *)
Definition keeps_wf {A} (m : M A) : Prop :=
  forall w r w', m w = (r, w') -> FS.wf (fs w) -> FS.wf (fs w').

(** A computation that neither reads nor writes [_config]. *)
Definition config_blind {A} (m : M A) : Prop :=
  forall c w, m (set_config c w) = let '(r, w') := m w in (r, set_config c w').

(** The network calls of a trace. *)
Definition network_calls (t : list event) : list event := List.filter is_network t.

(** The extractions of a trace. *)
Definition extractions (t : list event) : list event := List.filter is_extract t.

(** ** A small concrete world

    A hub that serves one archive with three members; used to run the
    module on explicit inputs. *)
Module Demo.

Definition text (s : string) : bytes := encode (Py.of_string s).

Definition same_bytes (a : bytes) (s : string) : bool :=
  String.eqb (Py.to_string (decode a)) s.

Definition label_map_text : string :=
  ("item {" ++ String "010" "  id: 1" ++ String "010" "  name: 'cat'" ++ String "010" "}" ++
   String "010" "item {" ++ String "010" "  id: 2" ++ String "010" "  name: 'dog'" ++
   String "010" "}" ++ String "010" "")%string.

Definition archive : bytes := text "PK-model".

Definition members : list ZipMember :=
  [ {| filename := ["saved_model"%string]; is_dir := true; data := None |};
    {| filename := ["saved_model"%string; "saved_model.pb"%string]; is_dir := false;
       data := Some (text "graph") |};
    {| filename := ["label_map.pbtxt"%string]; is_dir := false;
       data := Some (text label_map_text) |};
    {| filename := ["pipeline.config"%string]; is_dir := false;
       data := Some (text "model {}") |} ].

Definition digest (b : bytes) : string :=
  if same_bytes b "PK-model" then "5f2a"%string else "0000"%string.

Definition ready (hash : string) : json :=
  JObj [ ("status"%string, JStr "ready");
         ("projectSecretNeeded"%string, JBool false);
         ("signedUrl"%string, JStr "https://storage.example/model.zip");
         ("hash"%string, JStr hash) ].

Definition pending : json :=
  JObj [ ("status"%string, JStr "pending") ].

(** The registry answers with [code] and [body] at every endpoint; the
    storage answers 200 with the archive, announcing [announced]. *)
Definition env (code : Z) (body : option json) (announced : option Py.str)
  : Env unit :=
  {| home := ["home"%string; "user"%string];
     requests_post := fun _ _ =>
       inr {| registry_status_code := code; registry_json := body |};
     requests_get := fun _ =>
       inr {| status_code := 200; content_length := announced;
              content := archive; stream_error := None |};
     sha256_hexdigest := digest;
     zip_members := fun b => if same_bytes b "PK-model" then Some members else None;
     saved_model_load := fun f p =>
       if FS.isdir f p then inr tt else inl (LoaderError "no saved model") |}.

Definition empty_world : World :=
  {| config := initial_config; fs := ∅; handles := ∅; trace := [] |}.

Definition handle (hash : string) : HubModel :=
  {| model_key := "key";
     _height_width_cache := None;
     project_secret := None;
     _model_url_and_hash :=
       {| url := JStr "https://storage.example/model.zip"; checksum := JStr hash |};
     model_dir := ["home"%string; "user"%string; ".dataturehub"%string; "key"%string] |}.

End Demo.

Module Witness.

(** A download whose announced digest is not the digest of the archive. *)
Definition bad_env : Env unit :=
  Demo.env 200 (Some (Demo.ready "ffff")) (Some (Py.of_string "8")).

Definition made : World :=
  (fs_run (FS.mkdir_parents_exist_ok (model_dir (Demo.handle "ffff"))) Demo.empty_world).2.

Definition failed : World :=
  (download_model_body bad_env (Demo.handle "ffff") (Member TF) true made).2.

(** A download that succeeds. *)
Definition good_env : Env unit :=
  Demo.env 200 (Some (Demo.ready "5f2a")) (Some (Py.of_string "8")).

Definition populated : World :=
  (download_model good_env (Demo.handle "5f2a") (Member TF) true Demo.empty_world).2.

(** A storage that announces no length, and a wrong expected checksum. *)
Definition nolength_env : Env unit :=
  Demo.env 200 (Some (Demo.ready "ffff")) None.

Definition nolength_response : DownloadResponse :=
  {| status_code := 200; content_length := None;
     content := Demo.archive; stream_error := None |}.

Definition archive_path : path :=
  path_join (model_dir (Demo.handle "ffff")) "model.zip".

(** A storage that serves bytes that are no archive, with the expected
    digest. *)
Definition corrupt_env : Env unit :=
  {| home := home good_env;
     requests_post := requests_post good_env;
     requests_get := fun _ =>
       inr {| status_code := 200; content_length := Some (Py.of_string "7");
              content := Demo.text "garbage"; stream_error := None |};
     sha256_hexdigest := fun _ => "5f2a"%string;
     zip_members := zip_members good_env;
     saved_model_load := saved_model_load good_env |}.

(** A registry whose model is not ready. *)
Definition pending_env : Env unit := Demo.env 200 (Some Demo.pending) None.

Definition pending_response : RegistryResponse :=
  {| registry_status_code := 200; registry_json := Some Demo.pending |}.

(** The world after a handle has been constructed. *)
Definition constructed : World :=
  (__init__ good_env "key" None None Demo.empty_world).2.


End Witness.

(** ** Further properties of computations *)

(** The file systems [f] and [f'] agree outside the subtree of [dir]. *)
Definition same_outside (dir : path) (f f' : gmap path FS.node) : Prop :=
  forall p, ~ dir `prefix_of` p -> f' !! p = f !! p.

(** [dir] is a directory of a well-formed file system. *)
Definition cache_inv (dir : path) (f : gmap path FS.node) : Prop :=
  FS.wf f /\ f !! dir = Some FS.Dir.

(** A computation that, started where [dir] is a directory of a well-formed
    file system, keeps it so and changes nothing outside its subtree. *)
Definition confined {A} (dir : path) (m : M A) : Prop :=
  forall w r w', m w = (r, w') -> cache_inv dir (fs w) ->
    cache_inv dir (fs w') /\ same_outside dir (fs w) (fs w').

(** A computation that makes no external call and leaves [_config] and the
    handles alone. *)
Definition silent {A} (m : M A) : Prop :=
  forall w r w', m w = (r, w') ->
    config w' = config w /\ handles w' = handles w /\ trace w' = trace w.

(** ** Images *)

(** The image library and the reader of [pipeline.config], which are not
    part of the module. *)
Record ImageEnv (Image Tensor : Type) := {
  (** [get_height_width.dims_from_config(pipeline_path)], unpacked into
      height and width *)
  dims_from_config : gmap path FS.node -> path -> exn + (Z * Z);
  (** [Image.open(path)] *)
  image_open : gmap path FS.node -> path -> exn + Image;
  (** [image.convert(mode)] *)
  image_convert : Image -> string -> exn + Image;
  (** [image.resize(size)] *)
  image_resize : Image -> Z * Z -> exn + Image;
  (** [tf.convert_to_tensor(np.array(image))[tf.newaxis, ...]] *)
  to_tensor : Image -> exn + Tensor
}.
Arguments dims_from_config {_ _} _ _ _.
Arguments image_open {_ _} _ _ _.
Arguments image_convert {_ _} _ _ _.
Arguments image_resize {_ _} _ _ _.
Arguments to_tensor {_ _} _ _.

(** [self._height_width_cache = dims] *)
Definition set_height_width_cache (dims : Z * Z) (self : HubModel) : HubModel :=
  {| model_key := model_key self;
     _height_width_cache := Some dims;
     project_secret := project_secret self;
     _model_url_and_hash := _model_url_and_hash self;
     model_dir := model_dir self |}.

Section Images.

Context {Image Tensor : Type} (I : ImageEnv Image Tensor).

(** [load_image] *)
Definition load_image (image_path : path) (height width : Z) : M Tensor :=
  opened <- (fun w => (image_open I (fs w) image_path, w)) ;;
  image <- lift (image_convert I opened "RGB") ;;
  image <- lift (image_resize I image (height, width)) ;;
  lift (to_tensor I image).

(** [HubModel.load_image_with_model_dimensions] on the object stored at
    [address], whose attributes are [self]. *)
Definition load_image_with_model_dimensions (address : nat) (self : HubModel)
    (image_path : path) : M Tensor :=
  dims <- match _height_width_cache self with
          | Some dims => ret dims
          | None =>
              pipeline_path <- get_pipeline_config_dir self ;;
              dims <- (fun w => (dims_from_config I (fs w) pipeline_path, w)) ;;
              (fun w => (inr tt,
                         set_handles (<[address := set_height_width_cache dims self]>
                                        (handles w)) w)) ;;;
              ret dims
          end ;;
  load_image image_path dims.1 dims.2.

End Images.

(** ** Further concrete cases *)
Module Cases.

(** A regular file where the home directory should be. *)
Definition blocked : World :=
  {| config := initial_config;
     fs := {[ ["home"%string] := FS.File [] ]};
     handles := ∅;
     trace := [] |}.

(** A storage that has no such archive. *)
Definition missing_response : DownloadResponse :=
  {| status_code := 404; content_length := None; content := []; stream_error := None |}.

Definition missing_env : Env unit :=
  {| home := home Witness.good_env;
     requests_post := requests_post Witness.good_env;
     requests_get := fun _ => inr missing_response;
     sha256_hexdigest := sha256_hexdigest Witness.good_env;
     zip_members := zip_members Witness.good_env;
     saved_model_load := saved_model_load Witness.good_env |}.



(** A cache that holds a file the archive does not hold. *)
Definition old_file : path := path_join (model_dir (Demo.handle "5f2a")) "old.txt".

Definition stale : World :=
  set_fs (<[old_file := FS.File (Demo.text "old")]> (fs Witness.populated))
    Witness.populated.

(** The stale cache after a download that the checksum stops, and after
    one that succeeds. *)
Definition refused : World :=
  (download_model Witness.bad_env (Demo.handle "ffff") (Member TF) true stale).2.

Definition refreshed : World :=
  (download_model Witness.good_env (Demo.handle "5f2a") (Member TF) true stale).2.

(** The populated cache after a download that the checksum stops. *)
Definition lost : World :=
  (download_model Witness.bad_env (Demo.handle "ffff") (Member TF) true
     Witness.populated).2.

(** The world after the archive has arrived in the new directory. *)
Definition saved : World :=
  (_save_and_verify_model Witness.good_env (Demo.handle "5f2a") Witness.archive_path true
     Witness.made).2.

(** A registry whose answer is ready but has no hash. *)
Definition nohash : json :=
  JObj [ ("status"%string, JStr "ready");
         ("projectSecretNeeded"%string, JBool false);
         ("signedUrl"%string, JStr "https://storage.example/model.zip") ].

Definition nohash_env : Env unit := Demo.env 200 (Some nohash) None.

Definition nohash_response : RegistryResponse :=
  {| registry_status_code := 200; registry_json := Some nohash |}.

Definition ready_response : RegistryResponse :=
  {| registry_status_code := 200; registry_json := Some (Demo.ready "5f2a") |}.






(** A reader that finds 320 by 640 in any [pipeline.config], and an image
    library whose images are their sizes. *)
Definition image_env : ImageEnv (Z * Z) (list Z) :=
  {| dims_from_config := fun f p =>
       match FS.read p f with
       | inr _ => inr (320, 640)
       | inl e => inl e
       end;
     image_open := fun f p =>
       match FS.read p f with
       | inr _ => inr (100, 50)
       | inl e => inl e
       end;
     image_convert := fun image _ => inr image;
     image_resize := fun _ size => inr size;
     to_tensor := fun image => inr [1; image.2; image.1; 3] |}.

End Cases.

(** ** The file system: facts *)

Lemma makedirs_from_keeps rest : forall base f q n,
  f !! q = Some n -> (FS.makedirs_from base rest f).2 !! q = Some n.
Proof.
  induction rest as [|c rest IH]; intros base f q n Hq; simpl; [done|].
  destruct (f !! (base ++ [c])) as [[|content]|] eqn:Hp; simpl.
  - by apply IH.
  - done.
  - apply IH. rewrite lookup_insert_ne; [done|]. intros Heq. subst q. congruence.
Qed.

Lemma makedirs_from_made rest : forall base f f',
  FS.makedirs_from base rest f = (None, f') -> rest <> [] ->
  f' !! (base ++ rest) = Some FS.Dir.
Proof.
  induction rest as [|c rest IH]; intros base f f' Hrun Hne; [done|].
  simpl in Hrun.
  destruct rest as [|d rest].
  - destruct (f !! (base ++ [c])) as [[|content]|] eqn:Hp; simpl in Hrun.
    + by inversion Hrun; subst.
    + discriminate.
    + inversion Hrun; subst. by rewrite lookup_insert_eq.
  - replace (base ++ c :: d :: rest) with ((base ++ [c]) ++ d :: rest)
      by (by rewrite <- app_assoc).
    destruct (f !! (base ++ [c])) as [[|content]|] eqn:Hp.
    + by eapply IH.
    + discriminate.
    + by eapply IH.
Qed.

Lemma dirname_snoc (p : path) (c : string) : dirname (p ++ [c]) = p.
Proof. unfold dirname. by rewrite removelast_last. Qed.

Lemma wf_parent (f : gmap path FS.node) (p : path) (c : string) (n : FS.node) :
  FS.wf f -> f !! (p ++ [c]) = Some n -> FS.stat f p = Some FS.Dir.
Proof.
  intros Hwf Hp. specialize (Hwf _ _ Hp). simpl in Hwf.
  rewrite dirname_snoc in Hwf. unfold FS.isdir in Hwf.
  by destruct (FS.stat f p) as [[|?]|].
Qed.

Lemma wf_ancestor (f : gmap path FS.node) (rest : path) : forall (base : path) n,
  FS.wf f -> f !! (base ++ rest) = Some n -> rest <> [] -> base <> [] ->
  f !! base = Some FS.Dir.
Proof.
  induction rest as [|c rest IH] using rev_ind; intros base n Hwf Hp Hne Hb; [done|].
  rewrite app_assoc in Hp. apply wf_parent in Hp; [|done].
  destruct rest as [|d rest].
  - rewrite app_nil_r in Hp. by destruct base.
  - eapply IH; [done| |done|done].
    unfold FS.stat in Hp. destruct (base ++ d :: rest) eqn:Heq; [|done].
    by destruct base.
Qed.

Lemma makedirs_from_present rest : forall base f,
  FS.wf f -> f !! (base ++ rest) = Some FS.Dir ->
  FS.makedirs_from base rest f = (None, f).
Proof.
  induction rest as [|c rest IH]; intros base f Hwf Hp; [done|].
  simpl.
  assert (f !! (base ++ [c]) = Some FS.Dir) as ->.
  { destruct rest as [|d rest]; [done|].
    eapply (wf_ancestor f (d :: rest) (base ++ [c])); [done| |done|by destruct base].
    by rewrite <- app_assoc. }
  apply IH; [done|]. by rewrite <- app_assoc.
Qed.

Lemma rmtree_removes (f : gmap path FS.node) (p q : path) :
  f !! p = Some FS.Dir -> p `prefix_of` q ->
  FS.rmtree_ignore_errors p f !! q = None.
Proof.
  intros Hp Hpre. unfold FS.rmtree_ignore_errors. rewrite Hp.
  apply map_lookup_filter_None. right. intros n _ Hout. by apply Hout.
Qed.

Lemma rmtree_outside (f : gmap path FS.node) (p q : path) :
  ~ p `prefix_of` q -> FS.rmtree_ignore_errors p f !! q = f !! q.
Proof.
  intros Hout. unfold FS.rmtree_ignore_errors.
  destruct (f !! p) as [[|?]|]; try done.
  destruct (f !! q) as [n|] eqn:Hq.
  - by apply map_lookup_filter_Some.
  - apply map_lookup_filter_None. by left.
Qed.

Lemma stat_snoc (f : gmap path FS.node) (p : path) (c : string) :
  FS.stat f (p ++ [c]) = f !! (p ++ [c]).
Proof. unfold FS.stat. by destruct p. Qed.

Lemma stat_lookup (f : gmap path FS.node) (p : path) :
  f !! p = Some FS.Dir -> FS.stat f p = Some FS.Dir.
Proof. by destruct p. Qed.

Lemma open_wb_keeps (p : path) (f f' : gmap path FS.node) :
  FS.open_wb p f = inr f' -> dirs_kept f f'.
Proof.
  unfold FS.open_wb. intros Hop q Hq.
  destruct (FS.stat f (dirname p)) as [[|?]|]; try done.
  destruct (FS.stat f p) as [[|?]|] eqn:Hp; try done; inversion Hop; subst;
    (rewrite lookup_insert_ne; [done|]); intros <-;
    apply stat_lookup in Hq; congruence.
Qed.

Lemma mkdir_keeps (p : path) (f f' : gmap path FS.node) :
  FS.mkdir p f = inr f' -> dirs_kept f f'.
Proof.
  unfold FS.mkdir. intros Hop q Hq.
  destruct (FS.stat f p) eqn:Hp; [done|].
  destruct (FS.stat f (dirname p)) as [[|?]|]; try done.
  inversion Hop; subst. rewrite lookup_insert_ne; [done|]. intros <-.
  apply stat_lookup in Hq. congruence.
Qed.

Lemma remove_keeps (p : path) (f f' : gmap path FS.node) :
  FS.remove p f = inr f' -> dirs_kept f f'.
Proof.
  unfold FS.remove. intros Hop q Hq.
  destruct (FS.stat f p) as [[|?]|] eqn:Hp; try done.
  inversion Hop; subst. rewrite lookup_delete_ne; [done|]. intros <-.
  apply stat_lookup in Hq. congruence.
Qed.

Lemma write_keeps (p : path) (d : bytes) (f : gmap path FS.node) :
  dirs_kept f (FS.write p d f).
Proof.
  unfold FS.write. intros q Hq.
  destruct (f !! p) as [[|c]|] eqn:Hp; try done.
  rewrite lookup_insert_ne; [done|]. intros <-. congruence.
Qed.

Lemma makedirs_keeps (p : path) (f : gmap path FS.node) :
  dirs_kept f (FS.makedirs p f).2.
Proof.
  unfold FS.makedirs. intros q Hq.
  pose proof (makedirs_from_keeps p [] f q _ Hq) as Hk.
  by destruct (FS.makedirs_from [] p f) as [[e|] f'].
Qed.

Lemma dirs_kept_refl (f : gmap path FS.node) : dirs_kept f f.
Proof. by intros q. Qed.

Lemma dirs_kept_trans (f g h : gmap path FS.node) :
  dirs_kept f g -> dirs_kept g h -> dirs_kept f h.
Proof. intros Hfg Hgh q Hq. by apply Hgh, Hfg. Qed.

(** ** Computations: facts *)

Lemma bind_inr {A B} (m : M A) (k : A -> M B) w x w' :
  bind m k w = (inr x, w') ->
  exists y w1, m w = (inr y, w1) /\ k y w1 = (inr x, w').
Proof.
  unfold bind. destruct (m w) as [[e|y] w1]; [done|]. intros Hk. by exists y, w1.
Qed.

Lemma bind_inl {A B} (m : M A) (k : A -> M B) w e w' :
  bind m k w = (inl e, w') ->
  m w = (inl e, w') \/ exists y w1, m w = (inr y, w1) /\ k y w1 = (inl e, w').
Proof.
  unfold bind. destruct (m w) as [[e1|y] w1].
  - intros [= -> ->]. by left.
  - intros Hk. right. by exists y, w1.
Qed.

Lemma bind_ok {A B} (m : M A) (k : A -> M B) w x w1 :
  m w = (inr x, w1) -> bind m k w = k x w1.
Proof. unfold bind. by intros ->. Qed.

Lemma bind_fail {A B} (m : M A) (k : A -> M B) w e w1 :
  m w = (inl e, w1) -> bind m k w = (inl e, w1).
Proof. unfold bind. by intros ->. Qed.

Create HintDb keeps.

Lemma keeps_dirs_ret {A} (x : A) : keeps_dirs (ret x).
Proof. intros w r w' [= <- <-]. apply dirs_kept_refl. Qed.

Lemma keeps_dirs_raise {A} (e : exn) : keeps_dirs (@raise A e).
Proof. intros w r w' [= <- <-]. apply dirs_kept_refl. Qed.

Lemma keeps_dirs_lift {A} (r : exn + A) : keeps_dirs (lift r).
Proof. intros w r' w' [= <- <-]. apply dirs_kept_refl. Qed.

Lemma keeps_dirs_bind {A B} (m : M A) (k : A -> M B) :
  keeps_dirs m -> (forall x, keeps_dirs (k x)) -> keeps_dirs (bind m k).
Proof.
  intros Hm Hk w r w' Hrun. unfold bind in Hrun.
  destruct (m w) as [[e|y] w1] eqn:Hmw.
  - inversion Hrun; subst. by eapply Hm.
  - eapply dirs_kept_trans; [by eapply Hm|by eapply Hk].
Qed.

Lemma keeps_dirs_emit (e : event) : keeps_dirs (emit e).
Proof. intros w r w' [= <- <-]. apply dirs_kept_refl. Qed.

Lemma keeps_dirs_fs_read (p : path) : keeps_dirs (fs_read p).
Proof. intros w r w' [= <- <-]. apply dirs_kept_refl. Qed.

Lemma keeps_dirs_path_exists (p : path) : keeps_dirs (path_exists p).
Proof. intros w r w' [= <- <-]. apply dirs_kept_refl. Qed.

Lemma keeps_dirs_get_fs : keeps_dirs get_fs.
Proof. intros w r w' [= <- <-]. apply dirs_kept_refl. Qed.

Lemma keeps_dirs_put_fs_write (p : path) (d : bytes) : keeps_dirs (put_fs_write p d).
Proof. intros w r w' [= <- <-]. apply write_keeps. Qed.

Lemma keeps_dirs_fs_try op :
  (forall f f', op f = inr f' -> dirs_kept f f') -> keeps_dirs (fs_try op).
Proof.
  intros Hop w r w' Hrun. unfold fs_try in Hrun.
  destruct (op (fs w)) as [e|f'] eqn:Hf; inversion Hrun; subst.
  - apply dirs_kept_refl.
  - by apply Hop.
Qed.

Lemma keeps_dirs_fs_run op :
  (forall f, dirs_kept f (op f).2) -> keeps_dirs (fs_run op).
Proof.
  intros Hop w r w' Hrun. unfold fs_run in Hrun. specialize (Hop (fs w)).
  destruct (op (fs w)) as [[e|] f']; inversion Hrun; subst; apply Hop.
Qed.

Lemma keeps_dirs_for_each {A} (xs : list A) (body : A -> M unit) :
  (forall x, keeps_dirs (body x)) -> keeps_dirs (for_each xs body).
Proof.
  intros Hbody. induction xs as [|x xs IH]; simpl.
  - apply keeps_dirs_ret.
  - apply keeps_dirs_bind; [apply Hbody|]. by intros _.
Qed.

#[local] Hint Resolve keeps_dirs_ret keeps_dirs_raise keeps_dirs_lift keeps_dirs_emit
  keeps_dirs_fs_read keeps_dirs_path_exists keeps_dirs_get_fs keeps_dirs_put_fs_write
  keeps_dirs_for_each open_wb_keeps mkdir_keeps remove_keeps makedirs_keeps : keeps.

Ltac keeps_step :=
  match goal with
  | |- keeps_dirs (bind _ _) => apply keeps_dirs_bind; [|intros ?]
  | |- keeps_dirs (fs_try _) => apply keeps_dirs_fs_try; eauto with keeps
  | |- keeps_dirs (fs_run _) => apply keeps_dirs_fs_run; eauto with keeps
  | |- keeps_dirs (match ?x with _ => _ end) => destruct x
  | |- keeps_dirs (if ?b then _ else _) => destruct b
  | |- keeps_dirs _ => solve [eauto with keeps]
  end.

Section HubFacts.

Context {SavedModel : Type} (E : Env SavedModel).

Lemma keeps_dirs_http_get (target : json) : keeps_dirs (http_get E target).
Proof. intros w r w' [= <- <-]. apply dirs_kept_refl. Qed.

Lemma keeps_dirs_sha256 (p : path) (progress : bool) :
  keeps_dirs (_get_sha256_hash_of_file E p progress).
Proof. unfold _get_sha256_hash_of_file. repeat keeps_step. Qed.

Lemma keeps_dirs_save_and_verify (self : HubModel) (p : path) (progress : bool) :
  keeps_dirs (_save_and_verify_model E self p progress).
Proof.
  unfold _save_and_verify_model.
  keeps_step; [keeps_step|].
  keeps_step; [apply keeps_dirs_http_get|].
  keeps_step.
  { unfold raise_for_status. repeat keeps_step. }
  destruct (content_length _).
  - keeps_step; [repeat keeps_step|].
    keeps_step.
    { apply keeps_dirs_for_each. intros data. repeat keeps_step. }
    destruct (stream_error _); [keeps_step|].
    keeps_step; [apply keeps_dirs_sha256|].
    repeat keeps_step.
  - repeat keeps_step.
Qed.

Lemma keeps_dirs_extract_member (into : path) (m : ZipMember) :
  keeps_dirs (extract_member into m).
Proof. unfold extract_member. repeat keeps_step. Qed.

Lemma keeps_dirs_extractall (archive into : path) :
  keeps_dirs (extractall E archive into).
Proof.
  unfold extractall. keeps_step; [keeps_step|].
  destruct (zip_members _ _); [|keeps_step].
  keeps_step; [keeps_step|].
  apply keeps_dirs_for_each. intros m. apply keeps_dirs_extract_member.
Qed.

Lemma keeps_dirs_download_model_body (self : HubModel) (mt : model_type_arg)
    (progress : bool) :
  keeps_dirs (download_model_body E self mt progress).
Proof.
  unfold download_model_body. destruct mt as [[]|shown]; [|keeps_step].
  keeps_step; [apply keeps_dirs_save_and_verify|].
  keeps_step; [apply keeps_dirs_extractall|].
  keeps_step.
Qed.

End HubFacts.


(** ** Well-formed file systems *)

Lemma wf_empty : FS.wf ∅.
Proof. unfold FS.wf. apply map_Forall_empty. Qed.

Lemma dirname_shorter (p : path) : p <> [] -> dirname p <> p.
Proof.
  destruct p as [|c p] using rev_ind; [done|]. intros _.
  rewrite dirname_snoc. intros Heq. apply (f_equal length) in Heq.
  rewrite length_app in Heq. simpl in Heq. lia.
Qed.

Lemma isdir_root (f : gmap path FS.node) : FS.isdir f [] = true.
Proof. done. Qed.

Lemma isdir_lookup (f : gmap path FS.node) (p : path) :
  p <> [] -> FS.isdir f p = true -> f !! p = Some FS.Dir.
Proof.
  unfold FS.isdir, FS.stat. destruct p; [done|]. intros _.
  by destruct (f !! _) as [[|?]|].
Qed.

Lemma isdir_insert_ne (f : gmap path FS.node) (p q : path) (n : FS.node) :
  q <> p -> FS.isdir (<[p := n]> f) q = FS.isdir f q.
Proof.
  intros Hne. unfold FS.isdir, FS.stat. destruct q; [done|].
  by rewrite lookup_insert_ne.
Qed.

Lemma wf_insert (f : gmap path FS.node) (p : path) (n : FS.node) :
  FS.wf f -> FS.isdir f (dirname p) = true ->
  (f !! p = Some FS.Dir -> n = FS.Dir) ->
  FS.wf (<[p := n]> f).
Proof.
  intros Hwf Hparent Hdir q x Hq.
  destruct (decide (dirname q = [])) as [->|Hroot]; [done|].
  destruct (decide (dirname q = p)) as [Hqp|Hqp].
  - assert (f !! p = Some FS.Dir) as Hp.
    { apply isdir_lookup; [by rewrite <- Hqp|].
      destruct (decide (q = p)) as [->|Hne].
      - exfalso. apply (dirname_shorter p); [|done]. by intros ->.
      - rewrite lookup_insert_ne in Hq by done. specialize (Hwf q x Hq).
        simpl in Hwf. by rewrite Hqp in Hwf. }
    rewrite Hqp, (Hdir Hp). unfold FS.isdir, FS.stat.
    destruct p; [done|]. by rewrite lookup_insert_eq.
  - rewrite isdir_insert_ne by done.
    destruct (decide (q = p)) as [->|Hne]; [done|].
    rewrite lookup_insert_ne in Hq by done. exact (Hwf q x Hq).
Qed.

Lemma wf_delete_file (f : gmap path FS.node) (p : path) (c : bytes) :
  FS.wf f -> p <> [] -> f !! p = Some (FS.File c) -> FS.wf (delete p f).
Proof.
  intros Hwf Hne Hp q x Hq.
  apply lookup_delete_Some in Hq as [Hqp Hq].
  specialize (Hwf q x Hq). simpl in *.
  destruct (decide (dirname q = p)) as [Heq|Hdq].
  - rewrite Heq in Hwf. apply isdir_lookup in Hwf; [|done]. congruence.
  - unfold FS.isdir, FS.stat in *. destruct (dirname q); [done|].
    by rewrite lookup_delete_ne.
Qed.

Lemma wf_write (f : gmap path FS.node) (p : path) (d : bytes) :
  FS.wf f -> FS.wf (FS.write p d f).
Proof.
  intros Hwf. unfold FS.write. destruct (f !! p) as [[|c]|] eqn:Hp; try done.
  apply wf_insert; [done|exact (Hwf p _ Hp)|congruence].
Qed.

Lemma wf_open_wb (f f' : gmap path FS.node) (p : path) :
  FS.wf f -> FS.open_wb p f = inr f' -> FS.wf f'.
Proof.
  intros Hwf. unfold FS.open_wb.
  destruct (FS.stat f (dirname p)) as [[|?]|] eqn:Hparent; try done.
  assert (FS.isdir f (dirname p) = true) as Hd by (unfold FS.isdir; by rewrite Hparent).
  destruct (FS.stat f p) as [[|c]|] eqn:Hp; try done; intros [= <-];
    (apply wf_insert; [done|done|]); intros Hdir;
    apply stat_lookup in Hdir; congruence.
Qed.

Lemma wf_mkdir (f f' : gmap path FS.node) (p : path) :
  FS.wf f -> FS.mkdir p f = inr f' -> FS.wf f'.
Proof.
  intros Hwf. unfold FS.mkdir. destruct (FS.stat f p) eqn:Hp; [done|].
  destruct (FS.stat f (dirname p)) as [[|?]|] eqn:Hparent; try done.
  intros [= <-]. apply wf_insert; [done| |done].
  unfold FS.isdir. by rewrite Hparent.
Qed.

Lemma wf_remove (f f' : gmap path FS.node) (p : path) :
  FS.wf f -> FS.remove p f = inr f' -> FS.wf f'.
Proof.
  intros Hwf. unfold FS.remove, FS.stat. destruct p as [|c p]; [done|].
  destruct (f !! (c :: p)) as [[|content]|] eqn:Hp; try done.
  intros [= <-]. by eapply wf_delete_file.
Qed.

Lemma wf_makedirs_from (rest : path) : forall (base : path) (f : gmap path FS.node),
  FS.wf f -> FS.isdir f base = true -> FS.wf (FS.makedirs_from base rest f).2.
Proof.
  induction rest as [|c rest IH]; intros base f Hwf Hbase; simpl; [done|].
  destruct (f !! (base ++ [c])) as [[|content]|] eqn:Hp; simpl.
  - apply IH; [done|]. unfold FS.isdir. by rewrite stat_snoc, Hp.
  - done.
  - apply IH.
    + apply wf_insert; [done|by rewrite dirname_snoc|done].
    + unfold FS.isdir. by rewrite stat_snoc, lookup_insert_eq.
Qed.

Lemma wf_makedirs (p : path) (f : gmap path FS.node) :
  FS.wf f -> FS.wf (FS.makedirs p f).2.
Proof.
  intros Hwf. unfold FS.makedirs.
  pose proof (wf_makedirs_from p [] f Hwf (isdir_root f)) as Hmk.
  by destruct (FS.makedirs_from [] p f) as [[e|] f'].
Qed.

Lemma wf_rmtree (p : path) (f : gmap path FS.node) :
  FS.wf f -> FS.wf (FS.rmtree_ignore_errors p f).
Proof.
  intros Hwf. unfold FS.rmtree_ignore_errors.
  destruct (f !! p) as [[|?]|]; try done.
  intros q x Hq. apply map_lookup_filter_Some in Hq as [Hq Hout].
  specialize (Hwf q x Hq). cbn beta in *.
  destruct (decide (dirname q = [])) as [->|Hroot]; [done|].
  apply isdir_lookup in Hwf; [|done].
  assert (filter (FS.outside p) f !! dirname q = Some FS.Dir) as Hkept.
  { apply map_lookup_filter_Some. split; [done|].
    unfold FS.outside in *. simpl in *. intros Hpre. apply Hout.
    etrans; [exact Hpre|]. unfold dirname.
    destruct q as [|a q _] using rev_ind; [done|].
    rewrite removelast_last. by apply prefix_app_r. }
  unfold FS.isdir, FS.stat. destruct (dirname q) as [|c d] eqn:Hd; [done|].
  by rewrite Hkept.
Qed.

Lemma keeps_wf_ret {A} (x : A) : keeps_wf (ret x).
Proof. by intros w r w' [= <- <-]. Qed.

Lemma keeps_wf_raise {A} (e : exn) : keeps_wf (@raise A e).
Proof. by intros w r w' [= <- <-]. Qed.

Lemma keeps_wf_lift {A} (r : exn + A) : keeps_wf (lift r).
Proof. by intros w r' w' [= <- <-]. Qed.

Lemma keeps_wf_bind {A B} (m : M A) (k : A -> M B) :
  keeps_wf m -> (forall x, keeps_wf (k x)) -> keeps_wf (bind m k).
Proof.
  intros Hm Hk w r w' Hrun Hwf. unfold bind in Hrun.
  destruct (m w) as [[e|y] w1] eqn:Hmw.
  - inversion Hrun; subst. by eapply Hm.
  - eapply Hk; [exact Hrun|]. by eapply Hm.
Qed.

Lemma keeps_wf_try_except {A} (body : M A) (handler : exn -> M A) :
  keeps_wf body -> (forall e, keeps_wf (handler e)) -> keeps_wf (try_except body handler).
Proof.
  intros Hb Hh w r w' Hrun Hwf. unfold try_except in Hrun.
  destruct (body w) as [[e|y] w1] eqn:Hbw.
  - eapply Hh; [exact Hrun|]. by eapply Hb.
  - inversion Hrun; subst. by eapply Hb.
Qed.

Lemma keeps_wf_emit (e : event) : keeps_wf (emit e).
Proof. by intros w r w' [= <- <-]. Qed.

Lemma keeps_wf_fs_read (p : path) : keeps_wf (fs_read p).
Proof. by intros w r w' [= <- <-]. Qed.

Lemma keeps_wf_path_exists (p : path) : keeps_wf (path_exists p).
Proof. by intros w r w' [= <- <-]. Qed.

Lemma keeps_wf_get_fs : keeps_wf get_fs.
Proof. by intros w r w' [= <- <-]. Qed.

Lemma keeps_wf_put_fs_write (p : path) (d : bytes) : keeps_wf (put_fs_write p d).
Proof. intros w r w' [= <- <-] Hwf. by apply wf_write. Qed.

Lemma keeps_wf_fs_try op :
  (forall f f', FS.wf f -> op f = inr f' -> FS.wf f') -> keeps_wf (fs_try op).
Proof.
  intros Hop w r w' Hrun Hwf. unfold fs_try in Hrun.
  destruct (op (fs w)) as [e|f'] eqn:Hf; inversion Hrun; subst; [done|].
  by eapply Hop.
Qed.

Lemma keeps_wf_fs_run op :
  (forall f, FS.wf f -> FS.wf (op f).2) -> keeps_wf (fs_run op).
Proof.
  intros Hop w r w' Hrun Hwf. unfold fs_run in Hrun. specialize (Hop (fs w) Hwf).
  destruct (op (fs w)) as [[e|] f']; inversion Hrun; subst; apply Hop.
Qed.

Lemma keeps_wf_for_each {A} (xs : list A) (body : A -> M unit) :
  (forall x, keeps_wf (body x)) -> keeps_wf (for_each xs body).
Proof.
  intros Hbody. induction xs as [|x xs IH]; simpl.
  - apply keeps_wf_ret.
  - apply keeps_wf_bind; [apply Hbody|]. by intros _.
Qed.

Create HintDb wf.

#[local] Hint Resolve keeps_wf_ret keeps_wf_raise keeps_wf_lift keeps_wf_emit
  keeps_wf_fs_read keeps_wf_path_exists keeps_wf_get_fs keeps_wf_put_fs_write
  wf_open_wb wf_mkdir wf_remove wf_makedirs wf_rmtree : wf.

Ltac wf_step :=
  match goal with
  | |- keeps_wf (bind _ _) => apply keeps_wf_bind; [|intros ?]
  | |- keeps_wf (try_except _ _) => apply keeps_wf_try_except; [|intros ?]
  | |- keeps_wf (for_each _ _) => apply keeps_wf_for_each; intros ?
  | |- keeps_wf (fs_try _) => apply keeps_wf_fs_try; eauto with wf
  | |- keeps_wf (fs_run _) => apply keeps_wf_fs_run; eauto with wf
  | |- keeps_wf (match ?x with _ => _ end) => destruct x
  | |- keeps_wf (if ?b then _ else _) => destruct b
  | |- keeps_wf _ => solve [eauto with wf]
  end.

Section WellFormed.

Context {SavedModel : Type} (E : Env SavedModel).

Lemma keeps_wf_http_get (target : json) : keeps_wf (http_get E target).
Proof. by intros w r w' [= <- <-]. Qed.

(** [download_model] keeps the file system well formed, whether it
    returns or raises. *)
Lemma keeps_wf_download_model (self : HubModel) (mt : model_type_arg) (progress : bool) :
  keeps_wf (download_model E self mt progress).
Proof.
  unfold download_model, download_model_body, _save_and_verify_model, extractall,
    extract_member, _get_sha256_hash_of_file, raise_for_status,
    FS.mkdir_parents_exist_ok.
  repeat first
    [ apply keeps_wf_http_get
    | wf_step
    | (intros w r w' [= <- <-] Hwf; by apply wf_rmtree)
    | (intros f Hwf; by apply wf_makedirs_from) ].
Qed.

End WellFormed.

(** ** The claims *)

Lemma mkdir_parents_made (dir : path) (w w1 : World) :
  dir <> [] ->
  fs_run (FS.mkdir_parents_exist_ok dir) w = (inr tt, w1) ->
  fs w1 !! dir = Some FS.Dir.
Proof.
  intros Hne. unfold fs_run, FS.mkdir_parents_exist_ok.
  destruct (FS.makedirs_from [] dir (fs w)) as [[e|] f] eqn:Hmk; [done|].
  intros [= <-]. simpl. by apply (makedirs_from_made dir [] (fs w) f).
Qed.

(** C2: when the directory of the model has been made and the body of the
    [try] statement of [download_model] raises [e], whatever [e] is,
    [download_model] removes the whole subtree of [model_dir] and raises the
    same [e]; afterwards no path at or below [model_dir] exists. *)
Theorem download_model_failure_removes_cache {SavedModel : Type} (E : Env SavedModel)
    (self : HubModel) (mt : model_type_arg) (progress : bool)
    (w w1 w2 : World) (e : exn) :
  model_dir self <> [] ->
  fs_run (FS.mkdir_parents_exist_ok (model_dir self)) w = (inr tt, w1) ->
  download_model_body E self mt progress w1 = (inl e, w2) ->
  let w3 := set_fs (FS.rmtree_ignore_errors (model_dir self) (fs w2)) w2 in
  download_model E self mt progress w = (inl e, w3)
  /\ (forall p, model_dir self `prefix_of` p -> fs w3 !! p = None)
  /\ FS.exists_ (fs w3) (model_dir self) = false.
Proof.
  intros Hne Hmk Hbody w3.
  assert (forall p, model_dir self `prefix_of` p -> fs w3 !! p = None) as Hgone.
  { intros p Hp. apply rmtree_removes; [|done].
    eapply keeps_dirs_download_model_body; [exact Hbody|].
    by eapply mkdir_parents_made. }
  split; [|split; [done|]].
  - unfold download_model, bind, try_except. rewrite Hmk, Hbody. done.
  - unfold FS.exists_, FS.stat. destruct (model_dir self) eqn:Hd; [done|].
    by rewrite Hgone.
Qed.

(** C10: on a well-formed file system where [model_dir] is a directory,
    [download_model] with an argument that is not [ModelType.TF] raises
    [ValueError], has removed every path at or below [model_dir] when it
    does, and has made no external call. *)
Theorem download_model_invalid_type_destroys_cache {SavedModel : Type}
    (E : Env SavedModel) (self : HubModel) (shown : string) (progress : bool)
    (w : World) :
  FS.wf (fs w) ->
  fs w !! model_dir self = Some FS.Dir ->
  let w' := set_fs (FS.rmtree_ignore_errors (model_dir self) (fs w)) w in
  download_model E self (OtherObject shown) progress w
    = (inl (ValueError (InvalidModelType (OtherObject shown))), w')
  /\ (forall p, model_dir self `prefix_of` p -> fs w' !! p = None)
  /\ trace w' = trace w.
Proof.
  intros Hwf Hdir w'. split; [|split; [|done]].
  - unfold download_model, bind, try_except, fs_run, FS.mkdir_parents_exist_ok.
    rewrite (makedirs_from_present (model_dir self) [] (fs w) Hwf Hdir).
    by destruct w.
  - intros p Hp. by apply rmtree_removes.
Qed.

(** C3: when [model_dir] exists, [load_tf_model] without [force_download]
    goes straight to the TensorFlow loader on [model_dir/saved_model]; it
    makes no network call and leaves the file system alone, and a second
    call does the same on the same directory. *)
Theorem load_tf_model_reuses_cache {SavedModel : Type} (E : Env SavedModel)
    (self : HubModel) (progress : bool) (w : World) :
  FS.exists_ (fs w) (model_dir self) = true ->
  let dir := path_join (model_dir self) "saved_model" in
  let w1 := log (ESavedModelLoad dir) w in
  let w2 := log (ESavedModelLoad dir) w1 in
  load_tf_model E self false progress w = (saved_model_load E (fs w) dir, w1)
  /\ load_tf_model E self false progress w1 = (saved_model_load E (fs w) dir, w2)
  /\ network_calls (trace w1) = network_calls (trace w)
  /\ network_calls (trace w2) = network_calls (trace w)
  /\ fs w2 = fs w.
Proof.
  intros Hex dir w1 w2.
  assert (forall v, fs v = fs w ->
            load_tf_model E self false progress v
            = (saved_model_load E (fs w) dir, log (ESavedModelLoad dir) v)) as Hrun.
  { intros v Hv. unfold load_tf_model, bind, path_exists, tf_saved_model_load.
    rewrite Hv, Hex. simpl. by rewrite Hv. }
  repeat split.
  - by apply Hrun.
  - by apply Hrun.
  - unfold network_calls. simpl. rewrite List.filter_app. simpl. by rewrite app_nil_r.
  - unfold network_calls. simpl. rewrite !List.filter_app. simpl. by rewrite !app_nil_r.
Qed.



Lemma download_model_failure_removes_cache_witness :
  model_dir (Demo.handle "ffff") <> []
  /\ fs_run (FS.mkdir_parents_exist_ok (model_dir (Demo.handle "ffff"))) Demo.empty_world
     = (inr tt, Witness.made)
  /\ download_model_body Witness.bad_env (Demo.handle "ffff") (Member TF) true Witness.made
     = (inl (RuntimeError (ChecksumMismatch "5f2a" (JStr "ffff"))), Witness.failed)
  /\ FS.exists_
       (fs (set_fs (FS.rmtree_ignore_errors (model_dir (Demo.handle "ffff"))
                      (fs Witness.failed)) Witness.failed))
       (model_dir (Demo.handle "ffff")) = false.
Proof.
  assert (model_dir (Demo.handle "ffff") <> []) as H0 by done.
  assert (fs_run (FS.mkdir_parents_exist_ok (model_dir (Demo.handle "ffff")))
            Demo.empty_world = (inr tt, Witness.made)) as H1
    by (vm_compute; reflexivity).
  assert (download_model_body Witness.bad_env (Demo.handle "ffff") (Member TF) true
            Witness.made
          = (inl (RuntimeError (ChecksumMismatch "5f2a" (JStr "ffff"))), Witness.failed))
    as H2 by (vm_compute; reflexivity).
  split; [exact H0|]. split; [exact H1|]. split; [exact H2|].
  exact (proj2 (proj2 (download_model_failure_removes_cache Witness.bad_env
                         (Demo.handle "ffff") (Member TF) true
                         Demo.empty_world Witness.made Witness.failed _ H0 H1 H2))).
Defined.

Lemma split_at_app {A} (l : list A) : forall (n : N) a b,
  split_at n l = (a, b) -> a ++ b = l.
Proof.
  induction l as [|x l IH]; intros n a b; simpl.
  - by intros [= <- <-].
  - destruct (n =? 0)%N; [by intros [= <- <-]|].
    destruct (split_at (N.pred n) l) as [a' b'] eqn:Hs.
    intros [= <- <-]. simpl. f_equal. by eapply IH.
Qed.

Lemma chunks_fuel_fed {A} (fuel : nat) : forall (size : N) (l fed : list A),
  foldl (fun fed chunk => fed ++ chunk) fed (chunks_fuel fuel size l) = fed ++ l.
Proof.
  induction fuel as [|fuel IH]; intros size l fed.
  - destruct l; simpl; by rewrite ?app_nil_r.
  - destruct l as [|x l]; simpl; [by rewrite app_nil_r|].
    destruct (size =? 0)%N.
    + simpl. rewrite IH. by rewrite app_nil_r.
    + destruct (split_at (N.pred size) l) as [a b] eqn:Hs. simpl.
      rewrite IH. apply split_at_app in Hs. subst l. by rewrite <- app_assoc.
Qed.

Lemma chunks_fed {A} (size : N) (l : list A) :
  foldl (fun fed chunk => fed ++ chunk) [] (chunks size l) = l.
Proof. unfold chunks. by rewrite chunks_fuel_fed. Qed.

Lemma open_wb_inv (p : path) (f f' : gmap path FS.node) :
  FS.open_wb p f = inr f' -> p <> [] /\ f' = <[p := FS.File []]> f.
Proof.
  unfold FS.open_wb. destruct (FS.stat f (dirname p)) as [[|?]|]; try done.
  destruct p as [|c p]; [done|].
  destruct (FS.stat f (c :: p)) as [[|?]|]; try done; by intros [= <-].
Qed.

Lemma try_except_inr {A} (body : M A) (handler : exn -> M A) w x w' :
  (forall e v, exists e' v', handler e v = (inl e', v')) ->
  try_except body handler w = (inr x, w') -> body w = (inr x, w').
Proof.
  intros Hh. unfold try_except. destruct (body w) as [[e|y] v]; [|done].
  destruct (Hh e v) as (e' & v' & ->). done.
Qed.

Section Download.

Context {SavedModel : Type} (E : Env SavedModel).

Lemma sha256_of_file (p : path) (progress : bool) (w : World) (body : bytes) :
  FS.read p (fs w) = inr body ->
  _get_sha256_hash_of_file E p progress w = (inr (sha256_hexdigest E body), w).
Proof.
  intros Hread. unfold _get_sha256_hash_of_file, bind, fs_read, ret.
  rewrite Hread. by rewrite chunks_fed.
Qed.

(** What [_save_and_verify_model] does when the answer has no
    [content-length]: the body is written and the call returns. *)
Lemma save_without_length (self : HubModel) (dest : path) (progress : bool)
    (w : World) (f : gmap path FS.node) (resp : DownloadResponse) :
  FS.open_wb dest (fs w) = inr f ->
  requests_get E (url (_model_url_and_hash self)) = inr resp ->
  (400 <=? status_code resp) && (status_code resp <? 600) = false ->
  content_length resp = None ->
  stream_error resp = None ->
  _save_and_verify_model E self dest progress w
  = (inr tt, set_fs (<[dest := FS.File (content resp)]> (fs w))
               (log (EGet (url (_model_url_and_hash self))) w)).
Proof.
  intros Hopen Hget Hcode Hlen Herr.
  destruct (open_wb_inv _ _ _ Hopen) as [Hne ->].
  unfold _save_and_verify_model, bind, fs_try, http_get, raise_for_status.
  rewrite Hopen. simpl. rewrite Hget, Hcode. simpl. rewrite Hlen, Herr.
  unfold put_fs_write, set_fs, log, FS.write. simpl.
  rewrite lookup_insert_eq. simpl. by rewrite insert_insert_eq.
Qed.

End Download.

(** C5: when the file can be opened, the storage answers without an error
    status and without [content-length], and the body arrives whole,
    [_save_and_verify_model] returns normally and the file then holds
    exactly the bytes of the body. *)
Theorem download_without_length_writes_body {SavedModel : Type} (E : Env SavedModel)
    (self : HubModel) (dest : path) (progress : bool)
    (w : World) (f : gmap path FS.node) (resp : DownloadResponse) :
  FS.open_wb dest (fs w) = inr f ->
  requests_get E (url (_model_url_and_hash self)) = inr resp ->
  (400 <=? status_code resp) && (status_code resp <? 600) = false ->
  content_length resp = None ->
  stream_error resp = None ->
  exists w',
    _save_and_verify_model E self dest progress w = (inr tt, w')
    /\ FS.read dest (fs w') = inr (content resp)
    /\ forall q, q <> dest -> fs w' !! q = fs w !! q.
Proof.
  intros Hopen Hget Hcode Hlen Herr.
  eexists. split; [by eapply save_without_length|].
  destruct (open_wb_inv _ _ _ Hopen) as [Hne _]. simpl. split.
  - unfold FS.read, FS.stat. destruct dest; [done|]. by rewrite lookup_insert_eq.
  - intros q Hq. by rewrite lookup_insert_ne.
Qed.

(** C1, as the code behaves: without [content-length] the digest of the
    file is never compared.  Although the digest of the file that was
    written differs from the expected checksum, [_save_and_verify_model]
    returns normally instead of raising the checksum error. *)
Theorem download_without_length_skips_checksum {SavedModel : Type} (E : Env SavedModel)
    (self : HubModel) (dest : path) (progress : bool)
    (w : World) (f : gmap path FS.node) (resp : DownloadResponse) :
  FS.open_wb dest (fs w) = inr f ->
  requests_get E (url (_model_url_and_hash self)) = inr resp ->
  (400 <=? status_code resp) && (status_code resp <? 600) = false ->
  content_length resp = None ->
  stream_error resp = None ->
  differs_from (checksum (_model_url_and_hash self))
    (sha256_hexdigest E (content resp)) = true ->
  exists w' digest,
    _save_and_verify_model E self dest progress w = (inr tt, w')
    /\ _get_sha256_hash_of_file E dest progress w' = (inr digest, w')
    /\ differs_from (checksum (_model_url_and_hash self)) digest = true.
Proof.
  intros Hopen Hget Hcode Hlen Herr Hdiff.
  eexists _, _. split; [by eapply save_without_length|].
  destruct (open_wb_inv _ _ _ Hopen) as [Hne _]. split; [|exact Hdiff].
  apply sha256_of_file. simpl.
  unfold FS.read, FS.stat. destruct dest; [done|]. by rewrite lookup_insert_eq.
Qed.

Lemma writes_append (dest : path) (l : list bytes) : forall (f : gmap path FS.node) (c : bytes),
  f !! dest = Some (FS.File c) ->
  foldl (fun g d => FS.write dest d g) f l
  = <[dest := FS.File (foldl (fun fed chunk => fed ++ chunk) c l)]> f.
Proof.
  induction l as [|d l IH]; intros f c Hf; simpl.
  - by rewrite insert_id.
  - unfold FS.write at 2. rewrite Hf.
    rewrite (IH _ (c ++ d)); [|by rewrite lookup_insert_eq].
    by rewrite insert_insert_eq.
Qed.

Lemma for_each_writes (dest : path) (l : list bytes) : forall (w : World),
  for_each l (fun data => ret tt ;;; put_fs_write dest data) w
  = (inr tt, set_fs (foldl (fun g d => FS.write dest d g) (fs w) l) w).
Proof.
  induction l as [|d l IH]; intros w; simpl.
  - by destruct w.
  - unfold bind at 1. unfold bind at 1. simpl. rewrite IH. by destruct w.
Qed.

Section Verify.

Context {SavedModel : Type} (E : Env SavedModel).

(** With [content-length] the digest is compared: a body whose digest is
    not the expected one makes [_save_and_verify_model] raise, and
    [download_model] never reaches the extraction. *)
Lemma save_with_length_checks (self : HubModel) (progress : bool)
    (w : World) (f : gmap path FS.node) (resp : DownloadResponse)
    (announced : Py.str) (total : Z) :
  let dest := path_join (model_dir self) "model.zip" in
  let expected := checksum (_model_url_and_hash self) in
  let digest := sha256_hexdigest E (content resp) in
  FS.open_wb dest (fs w) = inr f ->
  requests_get E (url (_model_url_and_hash self)) = inr resp ->
  (400 <=? status_code resp) && (status_code resp <? 600) = false ->
  content_length resp = Some announced ->
  Py.int announced = Some total ->
  progress && (total =? 0) = false ->
  stream_error resp = None ->
  differs_from expected digest = true ->
  exists w',
    _save_and_verify_model E self dest progress w
    = (inl (RuntimeError (ChecksumMismatch digest expected)), w')
    /\ download_model_body E self (Member TF) progress w
       = (inl (RuntimeError (ChecksumMismatch digest expected)), w')
    /\ extractions (trace w') = extractions (trace w).
Proof.
  intros dest expected digest Hopen Hget Hcode Hlen Hint Hzero Herr Hdiff.
  destruct (open_wb_inv _ _ _ Hopen) as [Hne ->].
  assert (exists w', _save_and_verify_model E self dest progress w
            = (inl (RuntimeError (ChecksumMismatch digest expected)), w')
            /\ trace w' = trace w ++ [EGet (url (_model_url_and_hash self))])
    as (w' & Hrun & Htrace).
  { unfold _save_and_verify_model.
    erewrite bind_ok; [|unfold fs_try; rewrite Hopen; reflexivity].
    erewrite bind_ok; [|unfold http_get; rewrite Hget; reflexivity].
    erewrite bind_ok; [|unfold raise_for_status; rewrite Hcode; reflexivity].
    rewrite Hlen.
    erewrite bind_ok; [|unfold lift; rewrite Hint; reflexivity].
    erewrite bind_ok; [|rewrite Hzero; apply for_each_writes].
    rewrite Herr.
    erewrite bind_ok; last first.
    { apply sha256_of_file. simpl.
      erewrite writes_append; [|by rewrite lookup_insert_eq].
      rewrite chunks_fed. simpl.
      unfold FS.read, dest, path_join. rewrite stat_snoc.
      by rewrite lookup_insert_eq. }
    fold expected digest. rewrite Hdiff. unfold raise.
    eexists. split; [reflexivity|]. done. }
  exists w'. split; [done|]. split.
  - unfold download_model_body. fold dest. unfold bind at 1. by rewrite Hrun.
  - rewrite Htrace. unfold extractions. rewrite List.filter_app. simpl.
    by rewrite app_nil_r.
Qed.

End Verify.


(** ** Resolution at the registry *)

Lemma config_blind_ret {A} (x : A) : config_blind (ret x).
Proof. by intros c w. Qed.

Lemma config_blind_raise {A} (e : exn) : config_blind (@raise A e).
Proof. by intros c w. Qed.

Lemma config_blind_lift {A} (r : exn + A) : config_blind (lift r).
Proof. by intros c w. Qed.

Lemma config_blind_bind {A B} (m : M A) (k : A -> M B) :
  config_blind m -> (forall x, config_blind (k x)) -> config_blind (bind m k).
Proof.
  intros Hm Hk c w. unfold bind. rewrite Hm.
  destruct (m w) as [[e|x] w1]; [done|]. apply Hk.
Qed.

Lemma config_blind_try_except {A} (body : M A) (handler : exn -> M A) :
  config_blind body -> (forall e, config_blind (handler e)) ->
  config_blind (try_except body handler).
Proof.
  intros Hb Hh c w. unfold try_except. rewrite Hb.
  destruct (body w) as [[e|x] w1]; [apply Hh|done].
Qed.

Lemma config_blind_fs_try op : config_blind (fs_try op).
Proof. intros c w. unfold fs_try. simpl. by destruct (op (fs w)). Qed.

Lemma config_blind_fs_run op : config_blind (fs_run op).
Proof. intros c w. unfold fs_run. simpl. by destruct (op (fs w)) as [[e|] f]. Qed.

Lemma config_blind_fs_read (p : path) : config_blind (fs_read p).
Proof. by intros c w. Qed.

Lemma config_blind_path_exists (p : path) : config_blind (path_exists p).
Proof. by intros c w. Qed.

Lemma config_blind_get_fs : config_blind get_fs.
Proof. by intros c w. Qed.

Lemma config_blind_put_fs_write (p : path) (d : bytes) : config_blind (put_fs_write p d).
Proof. by intros c w. Qed.

Lemma config_blind_emit (e : event) : config_blind (emit e).
Proof. by intros c w. Qed.

Lemma config_blind_for_each {A} (xs : list A) (body : A -> M unit) :
  (forall x, config_blind (body x)) -> config_blind (for_each xs body).
Proof.
  intros Hbody. induction xs as [|x xs IH]; simpl.
  - apply config_blind_ret.
  - apply config_blind_bind; [apply Hbody|]. by intros _.
Qed.

Create HintDb blind.

#[local] Hint Resolve config_blind_ret config_blind_raise config_blind_lift
  config_blind_fs_try config_blind_fs_run config_blind_fs_read config_blind_path_exists
  config_blind_get_fs config_blind_put_fs_write config_blind_emit : blind.

Ltac blind_step :=
  match goal with
  | |- config_blind (bind _ _) => apply config_blind_bind; [|intros ?]
  | |- config_blind (try_except _ _) => apply config_blind_try_except; [|intros ?]
  | |- config_blind (for_each _ _) => apply config_blind_for_each; intros ?
  | |- config_blind (match ?x with _ => _ end) => destruct x
  | |- config_blind (if ?b then _ else _) => destruct b
  | |- config_blind _ => solve [eauto with blind]
  end.

Section Resolve.

Context {SavedModel : Type} (E : Env SavedModel).

Lemma config_blind_http_get (target : json) : config_blind (http_get E target).
Proof. by intros c w. Qed.

Lemma config_blind_download_model (self : HubModel) (mt : model_type_arg)
    (progress : bool) :
  config_blind (download_model E self mt progress).
Proof.
  unfold download_model, download_model_body, _save_and_verify_model, extractall,
    extract_member, _get_sha256_hash_of_file, raise_for_status.
  repeat first [apply config_blind_http_get | blind_step | by intros c w].
Qed.

(** Whatever the registry answers, a resolution makes one call, to the
    endpoint found in [_config], and touches nothing else. *)
Lemma resolve_world (key : string) (secret : option string) (w : World)
    (endpoint : string) :
  config w !! "hub_endpoint"%string = Some endpoint ->
  (_get_model_url_and_hash E key secret w).2 = log (EPost endpoint (api_params key secret)) w.
Proof.
  intros Hcfg. unfold _get_model_url_and_hash, bind at 1. rewrite Hcfg.
  unfold bind, http_get, http_post, raise_for_status, lift, getitem, raise, ret.
  destruct (requests_post E endpoint (api_params key secret)) as [e|resp]; [done|].
  destruct ((400 <=? registry_status_code resp) && (registry_status_code resp <? 600));
    [done|].
  destruct (registry_json resp) as [[| | | | |fields]|]; try done.
  destruct (assoc "status" fields) as [status|]; [|done].
  destruct (differs_from status "ready"); [done|].
  destruct (assoc "projectSecretNeeded" fields); [|done].
  destruct (assoc "signedUrl" fields); [|done].
  by destruct (assoc "hash" fields).
Qed.

End Resolve.

Lemma differs_from_ready (status : json) :
  status <> JStr "ready" -> differs_from status "ready" = true.
Proof.
  intros Hne. destruct status as [| | |s| |]; try done. simpl.
  apply negb_true_iff, String.eqb_neq. by intros ->.
Qed.

(** C4, with the statuses that [raise_for_status] rejects: a registry
    answer with an HTTP status from 400 to 599 makes the resolution, and
    with it the construction of the handle, raise [HTTPError] whatever the
    body says; an answer with any other HTTP status whose JSON object has a
    [status] field other than ["ready"] makes them raise the not-ready
    [RuntimeError].  In both cases the only external call made is the one
    to the registry, and no handle is stored. *)
Theorem resolve_checks_status {SavedModel : Type} (E : Env SavedModel)
    (key : string) (secret : option string) (hub_dir : option path)
    (w : World) (endpoint : string) (resp : RegistryResponse) :
  config w !! "hub_endpoint"%string = Some endpoint ->
  requests_post E endpoint (api_params key secret) = inr resp ->
  let code := registry_status_code resp in
  let w' := log (EPost endpoint (api_params key secret)) w in
  (400 <= code < 600 ->
   _get_model_url_and_hash E key secret w = (inl (HTTPError code), w')
   /\ __init__ E key secret hub_dir w = (inl (HTTPError code), w'))
  /\ (forall fields status,
        ~ 400 <= code < 600 ->
        registry_json resp = Some (JObj fields) ->
        assoc "status" fields = Some status ->
        status <> JStr "ready" ->
        _get_model_url_and_hash E key secret w = (inl (RuntimeError NotReadyToDownload), w')
        /\ __init__ E key secret hub_dir w = (inl (RuntimeError NotReadyToDownload), w')).
Proof.
  intros Hcfg Hpost code w'.
  assert (forall e, _get_model_url_and_hash E key secret w = (inl e, w') ->
                    __init__ E key secret hub_dir w = (inl e, w')) as Hinit.
  { intros e He. unfold __init__. by erewrite bind_fail. }
  split.
  - intros Hcode.
    assert (_get_model_url_and_hash E key secret w = (inl (HTTPError code), w')) as Hres.
    { unfold _get_model_url_and_hash.
      erewrite bind_ok; [|by rewrite Hcfg].
      erewrite bind_ok; [|unfold http_post; by rewrite Hpost].
      erewrite bind_fail; [done|]. unfold raise_for_status. fold code.
      replace ((400 <=? code) && (code <? 600)) with true; [done|].
      symmetry. apply andb_true_iff. split; [apply Z.leb_le|apply Z.ltb_lt]; lia. }
    split; [done|by apply Hinit].
  - intros fields status Hcode Hjson Hstatus Hne.
    assert (_get_model_url_and_hash E key secret w
            = (inl (RuntimeError NotReadyToDownload), w')) as Hres.
    { unfold _get_model_url_and_hash.
      erewrite bind_ok; [|by rewrite Hcfg].
      erewrite bind_ok; [|unfold http_post; by rewrite Hpost].
      erewrite bind_ok; last first.
      { unfold raise_for_status. fold code.
        replace ((400 <=? code) && (code <? 600)) with false; [done|].
        symmetry. apply andb_false_iff.
        destruct (Z.leb_spec 400 code); [right|by left].
        apply Z.ltb_ge. lia. }
      erewrite bind_ok; [|unfold lift; by rewrite Hjson].
      erewrite bind_ok; [|unfold getitem; by rewrite Hstatus].
      by rewrite differs_from_ready. }
    split; [done|by apply Hinit].
Qed.

(** C4 as stated fails: an answer with status 304, which is not a 2xx
    status, and a ready body is accepted. *)
Lemma resolve_non_2xx_counterexample :
  ~ (forall (E : Env unit) (key : string) (secret : option string) (w : World)
            (endpoint : string) (resp : RegistryResponse),
       config w !! "hub_endpoint"%string = Some endpoint ->
       requests_post E endpoint (api_params key secret) = inr resp ->
       ~ 200 <= registry_status_code resp < 300 ->
       exists code w', _get_model_url_and_hash E key secret w = (inl (HTTPError code), w')).
Proof.
  intros Hclaim.
  destruct (Hclaim (Demo.env 304 (Some (Demo.ready "5f2a")) None) "key"%string None
              Demo.empty_world "https://api.datature.io/hub"%string
              {| registry_status_code := 304;
                 registry_json := Some (Demo.ready "5f2a") |})
    as (code & w' & Hrun).
  - reflexivity.
  - reflexivity.
  - simpl. lia.
  - vm_compute in Hrun. discriminate.
Qed.

(** C7: after a handle has been constructed, [_set_hub_endpoint] sends
    every later resolution to the new endpoint, while the stored handle,
    with the URL and checksum resolved at its construction through the old
    endpoint, is unchanged, and [download_model] on it runs exactly as it
    would have run before the change. *)
Theorem set_hub_endpoint_spares_handles {SavedModel : Type} (E : Env SavedModel)
    (key : string) (secret : option string) (hub_dir : option path)
    (w0 w1 : World) (address : nat) (endpoint' : string) :
  __init__ E key secret hub_dir w0 = (inr address, w1) ->
  let w2 := (_set_hub_endpoint endpoint' w1).2 in
  (forall key' secret',
     (_get_model_url_and_hash E key' secret' w2).2
     = log (EPost endpoint' (api_params key' secret')) w2)
  /\ exists (self : HubModel) (endpoint0 : string),
       config w0 !! "hub_endpoint"%string = Some endpoint0
       /\ _get_model_url_and_hash E key secret w0
          = (inr (_model_url_and_hash self), log (EPost endpoint0 (api_params key secret)) w0)
       /\ handles w1 !! address = Some self
       /\ handles w2 !! address = Some self
       /\ forall mt progress,
            download_model E self mt progress w2
            = let '(r, w3) := download_model E self mt progress w1 in
              (r, set_config (config w2) w3).
Proof.
  intros Hinit w2. split.
  - intros key' secret'. apply resolve_world. simpl. by rewrite lookup_insert_eq.
  - unfold __init__ in Hinit.
    apply bind_inr in Hinit as (resolved & wr & Hres & Halloc).
    inversion Halloc; subst address w1; clear Halloc.
    destruct (config w0 !! "hub_endpoint"%string) as [endpoint0|] eqn:Hcfg; last first.
    { unfold _get_model_url_and_hash, bind at 1 in Hres. by rewrite Hcfg in Hres. }
    pose proof (resolve_world E key secret w0 endpoint0 Hcfg) as Hw.
    rewrite Hres in Hw. simpl in Hw. subst wr.
    eexists _, endpoint0. split; [done|]. split; last first.
    { subst w2. unfold _set_hub_endpoint, set_config, set_handles. cbn [snd handles].
      split; [by rewrite lookup_insert_eq|]. split; [by rewrite lookup_insert_eq|].
      intros mt progress. apply (config_blind_download_model E). }
    exact Hres.
Qed.

(** ** The label map *)

Import LabelFile.




(** *** Newlines and lines *)








(** *** Classes of characters *)









(** *** Searching and splitting *)










(** *** Stripping *)





(** *** Integers *)


(** *** The two lines of a record *)


















(** *** The loop *)


(** *** The dictionary of the records *)





(** ** The claims on the concrete world *)

(** A corrupt archive: [BadZipFile] reaches the caller, [model_dir] is
    gone, the directories above it stay. *)
Example download_model_corrupt_archive :
  let '(r, w) := download_model Witness.corrupt_env (Demo.handle "5f2a") (Member TF) true
                   Demo.empty_world in
  r = inl BadZipFile
  /\ FS.exists_ (fs w) (model_dir (Demo.handle "5f2a")) = false
  /\ FS.exists_ (fs w) (dirname (model_dir (Demo.handle "5f2a"))) = true
  /\ extractions (trace w) = [].
Proof. vm_compute. repeat split. Qed.

Lemma download_model_invalid_type_destroys_cache_witness :
  FS.wf (fs Witness.populated)
  /\ fs Witness.populated !! model_dir (Demo.handle "5f2a") = Some FS.Dir
  /\ download_model Witness.good_env (Demo.handle "5f2a") (OtherObject "ONNX") true
       Witness.populated
     = (inl (ValueError (InvalidModelType (OtherObject "ONNX"))),
        set_fs (FS.rmtree_ignore_errors (model_dir (Demo.handle "5f2a"))
                  (fs Witness.populated)) Witness.populated).
Proof.
  assert (FS.wf (fs Witness.populated)) as H1.
  { unfold FS.wf. apply (bool_decide_unpack _). vm_compute. exact I. }
  assert (fs Witness.populated !! model_dir (Demo.handle "5f2a") = Some FS.Dir) as H2
    by (vm_compute; reflexivity).
  split; [exact H1|]. split; [exact H2|].
  exact (proj1 (download_model_invalid_type_destroys_cache Witness.good_env
                  (Demo.handle "5f2a") "ONNX" true Witness.populated H1 H2)).
Defined.

Lemma load_tf_model_reuses_cache_witness :
  FS.exists_ (fs Witness.populated) (model_dir (Demo.handle "5f2a")) = true
  /\ network_calls
       (trace (load_tf_model Witness.good_env (Demo.handle "5f2a") false true
                 Witness.populated).2)
     = network_calls (trace Witness.populated).
Proof.
  assert (FS.exists_ (fs Witness.populated) (model_dir (Demo.handle "5f2a")) = true) as H1
    by (vm_compute; reflexivity).
  split; [exact H1|].
  destruct (load_tf_model_reuses_cache Witness.good_env (Demo.handle "5f2a") true
              Witness.populated H1) as (Hrun & _ & Hnet & _).
  rewrite Hrun. exact Hnet.
Defined.


Lemma download_without_length_writes_body_witness :
  FS.open_wb Witness.archive_path (fs Witness.made)
  = inr (<[Witness.archive_path := FS.File []]> (fs Witness.made))
  /\ requests_get Witness.nolength_env (url (_model_url_and_hash (Demo.handle "ffff")))
     = inr Witness.nolength_response
  /\ exists w',
       _save_and_verify_model Witness.nolength_env (Demo.handle "ffff")
         Witness.archive_path true Witness.made = (inr tt, w')
       /\ FS.read Witness.archive_path (fs w') = inr Demo.archive.
Proof.
  assert (FS.open_wb Witness.archive_path (fs Witness.made)
          = inr (<[Witness.archive_path := FS.File []]> (fs Witness.made))) as H1
    by reflexivity.
  assert (requests_get Witness.nolength_env (url (_model_url_and_hash (Demo.handle "ffff")))
          = inr Witness.nolength_response) as H2 by reflexivity.
  split; [exact H1|]. split; [exact H2|].
  destruct (download_without_length_writes_body Witness.nolength_env (Demo.handle "ffff")
              Witness.archive_path true Witness.made _ Witness.nolength_response
              H1 H2 eq_refl eq_refl eq_refl) as (w' & Hrun & Hread & _).
  exists w'. split; [exact Hrun|exact Hread].
Defined.

Lemma download_without_length_skips_checksum_witness :
  FS.open_wb Witness.archive_path (fs Witness.made)
  = inr (<[Witness.archive_path := FS.File []]> (fs Witness.made))
  /\ differs_from (checksum (_model_url_and_hash (Demo.handle "ffff")))
       (sha256_hexdigest Witness.nolength_env (content Witness.nolength_response)) = true
  /\ exists w' digest,
       _save_and_verify_model Witness.nolength_env (Demo.handle "ffff")
         Witness.archive_path true Witness.made = (inr tt, w')
       /\ _get_sha256_hash_of_file Witness.nolength_env Witness.archive_path true w'
          = (inr digest, w')
       /\ differs_from (checksum (_model_url_and_hash (Demo.handle "ffff"))) digest = true.
Proof.
  assert (FS.open_wb Witness.archive_path (fs Witness.made)
          = inr (<[Witness.archive_path := FS.File []]> (fs Witness.made))) as H1
    by reflexivity.
  assert (differs_from (checksum (_model_url_and_hash (Demo.handle "ffff")))
            (sha256_hexdigest Witness.nolength_env (content Witness.nolength_response))
          = true) as H2 by (vm_compute; reflexivity).
  split; [exact H1|]. split; [exact H2|].
  exact (download_without_length_skips_checksum Witness.nolength_env (Demo.handle "ffff")
           Witness.archive_path true Witness.made _ Witness.nolength_response
           H1 eq_refl eq_refl eq_refl eq_refl H2).
Defined.

(** The whole of [download_model] on that input: the cache is populated
    from an archive whose digest, [5f2a], is not the expected [ffff]. *)
Example download_model_accepts_unverified_archive :
  let '(r, w) := download_model Witness.nolength_env (Demo.handle "ffff") (Member TF) true
                   Demo.empty_world in
  r = inr (model_dir (Demo.handle "ffff"))
  /\ extractions (trace w)
     = [EExtract Witness.archive_path (model_dir (Demo.handle "ffff"))]
  /\ FS.exists_ (fs w) (path_join (model_dir (Demo.handle "ffff")) "pipeline.config") = true.
Proof. vm_compute. repeat split. Qed.


Lemma resolve_checks_status_witness :
  config Demo.empty_world !! "hub_endpoint"%string = Some "https://api.datature.io/hub"%string
  /\ requests_post Witness.pending_env "https://api.datature.io/hub"
       (api_params "key" None) = inr Witness.pending_response
  /\ __init__ Witness.pending_env "key" None None Demo.empty_world
     = (inl (RuntimeError NotReadyToDownload),
        log (EPost "https://api.datature.io/hub" (api_params "key" None)) Demo.empty_world).
Proof.
  assert (config Demo.empty_world !! "hub_endpoint"%string
          = Some "https://api.datature.io/hub"%string) as H1 by reflexivity.
  assert (requests_post Witness.pending_env "https://api.datature.io/hub"
            (api_params "key" None) = inr Witness.pending_response) as H2 by reflexivity.
  split; [exact H1|]. split; [exact H2|].
  refine (proj2 (proj2 (resolve_checks_status Witness.pending_env "key" None None
                          Demo.empty_world _ Witness.pending_response H1 H2)
                   [("status"%string, JStr "pending")] (JStr "pending") _ eq_refl eq_refl _)).
  - simpl. lia.
  - discriminate.
Defined.

Lemma set_hub_endpoint_spares_handles_witness :
  __init__ Witness.good_env "key" None None Demo.empty_world = (inr 0%nat, Witness.constructed)
  /\ handles (_set_hub_endpoint "https://hub.example" Witness.constructed).2 !! 0%nat
     = handles Witness.constructed !! 0%nat.
Proof.
  assert (__init__ Witness.good_env "key" None None Demo.empty_world
          = (inr 0%nat, Witness.constructed)) as H1 by (vm_compute; reflexivity).
  split; [exact H1|].
  destruct (set_hub_endpoint_spares_handles Witness.good_env "key" None None
              Demo.empty_world Witness.constructed 0%nat "https://hub.example" H1)
    as (_ & self & endpoint0 & _ & _ & Hbefore & Hafter & _).
  rewrite Hafter. symmetry. exact Hbefore.
Defined.


(** * Further properties of the module *)

(** ** Where [download_model] writes *)

Lemma same_outside_refl (dir : path) (f : gmap path FS.node) : same_outside dir f f.
Proof. by intros p _. Qed.

Lemma same_outside_trans (dir : path) (f g h : gmap path FS.node) :
  same_outside dir f g -> same_outside dir g h -> same_outside dir f h.
Proof. intros Hfg Hgh p Hp. by rewrite Hgh, Hfg. Qed.

Lemma same_outside_insert (dir p : path) (n : FS.node) (f : gmap path FS.node) :
  dir `prefix_of` p -> same_outside dir f (<[p := n]> f).
Proof. intros Hpre q Hq. rewrite lookup_insert_ne; [done|]. by intros <-. Qed.

Lemma same_outside_delete (dir p : path) (f : gmap path FS.node) :
  dir `prefix_of` p -> same_outside dir f (delete p f).
Proof. intros Hpre q Hq. rewrite lookup_delete_ne; [done|]. by intros <-. Qed.

Lemma same_outside_write (dir p : path) (d : bytes) (f : gmap path FS.node) :
  dir `prefix_of` p -> same_outside dir f (FS.write p d f).
Proof.
  intros Hpre. unfold FS.write. destruct (f !! p) as [[|c]|]; try apply same_outside_refl.
  by apply same_outside_insert.
Qed.

(** Creating directories touches only prefixes of the path asked for. *)
Lemma makedirs_from_elsewhere (rest : path) : forall (base : path) (f : gmap path FS.node) p,
  ~ p `prefix_of` base ++ rest ->
  (FS.makedirs_from base rest f).2 !! p = f !! p.
Proof.
  induction rest as [|c rest IH]; intros base f p Hp; simpl; [done|].
  assert (~ p `prefix_of` (base ++ [c]) ++ rest) as Hp' by by rewrite <- app_assoc.
  destruct (f !! (base ++ [c])) as [[|content]|] eqn:Hbc; simpl; [by apply IH|done|].
  rewrite IH by done. rewrite lookup_insert_ne; [done|].
  intros <-. apply Hp. exists rest. by rewrite <- app_assoc.
Qed.

(** What creating directories adds is a directory. *)
Lemma makedirs_from_new (rest : path) : forall (base : path) (f : gmap path FS.node) p n,
  (FS.makedirs_from base rest f).2 !! p = Some n -> f !! p = None -> n = FS.Dir.
Proof.
  induction rest as [|c rest IH]; intros base f p n Hp Hnone; simpl in Hp; [congruence|].
  destruct (f !! (base ++ [c])) as [[|content]|] eqn:Hbc; simpl in Hp.
  - by eapply IH.
  - congruence.
  - destruct (decide (p = base ++ [c])) as [->|Hne].
    + pose proof (makedirs_from_keeps rest (base ++ [c]) (<[base ++ [c] := FS.Dir]> f)
                    (base ++ [c]) FS.Dir) as Hk.
      rewrite lookup_insert_eq in Hk. specialize (Hk eq_refl). congruence.
    + eapply IH; [exact Hp|]. by rewrite lookup_insert_ne.
Qed.

(** Below an existing directory of a well-formed file system, creating
    directories adds nothing outside that directory. *)
Lemma makedirs_from_inside (rest : path) : forall (base dir : path) (f : gmap path FS.node),
  FS.wf f -> FS.isdir f base = true -> f !! dir = Some FS.Dir ->
  dir `prefix_of` base ++ rest ->
  same_outside dir f (FS.makedirs_from base rest f).2.
Proof.
  induction rest as [|c rest IH]; intros base dir f Hwf Hbase Hdir Hpre; simpl.
  - apply same_outside_refl.
  - assert (dir `prefix_of` (base ++ [c]) ++ rest) as Hpre' by by rewrite <- app_assoc.
    destruct (f !! (base ++ [c])) as [[|content]|] eqn:Hbc; simpl.
    + apply IH; try done. unfold FS.isdir. by rewrite stat_snoc, Hbc.
    + apply same_outside_refl.
    + assert (dir `prefix_of` base ++ [c]) as Hin.
      { destruct (prefix_weak_total dir (base ++ [c]) ((base ++ [c]) ++ rest))
          as [?|[k Hk]]; [done|by apply prefix_app_r|done|].
        destruct k as [|x k]; [rewrite app_nil_r in Hk; by rewrite Hk|].
        exfalso.
        assert (f !! (base ++ [c]) = Some FS.Dir) as Habs; [|congruence].
        eapply (wf_ancestor f (x :: k) (base ++ [c])); [done| |done|by destruct base].
        by rewrite <- Hk. }
      eapply same_outside_trans;
        [exact (same_outside_insert dir (base ++ [c]) FS.Dir f Hin)|].
      apply IH; try done.
      * apply wf_insert; [done|by rewrite dirname_snoc|done].
      * unfold FS.isdir. by rewrite stat_snoc, lookup_insert_eq.
      * rewrite lookup_insert_ne; [done|]. intros Heq. congruence.
Qed.


Lemma cache_inv_parent (dir : path) (f : gmap path FS.node) :
  cache_inv dir f -> FS.exists_ f (dirname dir) = true.
Proof.
  intros [Hwf Hdir]. specialize (Hwf dir _ Hdir). simpl in Hwf.
  unfold FS.exists_, FS.isdir in *. by destruct (FS.stat f (dirname dir)).
Qed.

Lemma confined_same {A} (dir : path) (m : M A) :
  (forall w r w', m w = (r, w') -> fs w' = fs w) -> confined dir m.
Proof.
  intros Hm w r w' Hrun Hinv. rewrite (Hm _ _ _ Hrun). split; [done|].
  apply same_outside_refl.
Qed.

Lemma confined_ret {A} (dir : path) (x : A) : confined dir (ret x).
Proof. apply confined_same. by intros w r w' [= <- <-]. Qed.

Lemma confined_raise {A} (dir : path) (e : exn) : confined dir (@raise A e).
Proof. apply confined_same. by intros w r w' [= <- <-]. Qed.

Lemma confined_lift {A} (dir : path) (r : exn + A) : confined dir (lift r).
Proof. apply confined_same. by intros w r' w' [= <- <-]. Qed.

Lemma confined_emit (dir : path) (e : event) : confined dir (emit e).
Proof. apply confined_same. by intros w r w' [= <- <-]. Qed.

Lemma confined_fs_read (dir p : path) : confined dir (fs_read p).
Proof. apply confined_same. by intros w r w' [= <- <-]. Qed.

Lemma confined_path_exists (dir p : path) : confined dir (path_exists p).
Proof. apply confined_same. by intros w r w' [= <- <-]. Qed.

Lemma confined_get_fs (dir : path) : confined dir get_fs.
Proof. apply confined_same. by intros w r w' [= <- <-]. Qed.

Lemma confined_bind {A B} (dir : path) (m : M A) (k : A -> M B) :
  confined dir m -> (forall x, confined dir (k x)) -> confined dir (bind m k).
Proof.
  intros Hm Hk w r w' Hrun Hinv. unfold bind in Hrun.
  destruct (m w) as [[e|y] w1] eqn:Hmw.
  - inversion Hrun; subst. by eapply Hm.
  - destruct (Hm _ _ _ Hmw Hinv) as [Hinv1 Hout1].
    destruct (Hk y _ _ _ Hrun Hinv1) as [Hinv2 Hout2].
    split; [done|]. by eapply same_outside_trans.
Qed.

Lemma confined_for_each {A} (dir : path) (xs : list A) (body : A -> M unit) :
  (forall x, confined dir (body x)) -> confined dir (for_each xs body).
Proof.
  intros Hbody. induction xs as [|x xs IH]; simpl.
  - apply confined_ret.
  - apply confined_bind; [apply Hbody|]. by intros _.
Qed.

Lemma confined_put_fs_write (dir p : path) (d : bytes) :
  dir `prefix_of` p -> confined dir (put_fs_write p d).
Proof.
  intros Hpre w r w' [= <- <-] [Hwf Hdir]. simpl. split; [split|].
  - by apply wf_write.
  - by apply write_keeps.
  - by apply same_outside_write.
Qed.

Lemma confined_open_wb (dir p : path) :
  dir `prefix_of` p -> confined dir (fs_try (FS.open_wb p)).
Proof.
  intros Hpre w r w' Hrun [Hwf Hdir]. unfold fs_try in Hrun.
  destruct (FS.open_wb p (fs w)) as [e|f'] eqn:Hop; inversion Hrun; subst.
  { split; [done|apply same_outside_refl]. }
  simpl. split; [split|].
  - by eapply wf_open_wb.
  - by eapply open_wb_keeps.
  - destruct (open_wb_inv _ _ _ Hop) as [_ ->]. by apply same_outside_insert.
Qed.

Lemma confined_mkdir (dir p : path) :
  dir `prefix_of` p -> confined dir (fs_try (FS.mkdir p)).
Proof.
  intros Hpre w r w' Hrun [Hwf Hdir]. unfold fs_try in Hrun.
  destruct (FS.mkdir p (fs w)) as [e|f'] eqn:Hop; inversion Hrun; subst.
  { split; [done|apply same_outside_refl]. }
  simpl. split; [split|].
  - by eapply wf_mkdir.
  - by eapply mkdir_keeps.
  - unfold FS.mkdir in Hop. destruct (FS.stat (fs w) p); [done|].
    destruct (FS.stat (fs w) (dirname p)) as [[|?]|]; try done.
    inversion Hop; subst. by apply same_outside_insert.
Qed.

Lemma confined_remove (dir p : path) :
  dir `prefix_of` p -> confined dir (fs_try (FS.remove p)).
Proof.
  intros Hpre w r w' Hrun [Hwf Hdir]. unfold fs_try in Hrun.
  destruct (FS.remove p (fs w)) as [e|f'] eqn:Hop; inversion Hrun; subst.
  { split; [done|apply same_outside_refl]. }
  simpl. split; [split|].
  - by eapply wf_remove.
  - by eapply remove_keeps.
  - unfold FS.remove in Hop. destruct (FS.stat (fs w) p) as [[|?]|]; try done.
    inversion Hop; subst. by apply same_outside_delete.
Qed.

Lemma confined_makedirs (dir p : path) :
  dir `prefix_of` p -> confined dir (fs_run (FS.makedirs p)).
Proof.
  intros Hpre w r w' Hrun [Hwf Hdir].
  assert (fs w' = (FS.makedirs p (fs w)).2) as ->.
  { unfold fs_run in Hrun. by destruct (FS.makedirs p (fs w)) as [[e|] f'];
      inversion Hrun; subst. }
  split; [split|].
  - by apply wf_makedirs.
  - by apply makedirs_keeps.
  - pose proof (makedirs_from_inside p [] dir (fs w) Hwf (isdir_root _) Hdir Hpre) as Hin.
    unfold FS.makedirs. by destruct (FS.makedirs_from [] p (fs w)) as [[e|] f'].
Qed.

(** The directories above the target of a member of the archive lie in the
    directory extracted into, or exist already. *)
Lemma confined_upperdirs (into name : path) :
  confined into
    (present <- path_exists (dirname (into ++ name)) ;;
     (if present then ret tt else fs_run (FS.makedirs (dirname (into ++ name))))).
Proof.
  destruct name as [|x name _] using rev_ind.
  - rewrite app_nil_r. intros w r w' Hrun Hinv.
    unfold bind, path_exists in Hrun. rewrite (cache_inv_parent into (fs w) Hinv) in Hrun.
    inversion Hrun; subst. split; [done|apply same_outside_refl].
  - rewrite app_assoc. rewrite dirname_snoc.
    apply confined_bind; [apply confined_path_exists|].
    intros [|]; [apply confined_ret|].
    apply confined_makedirs. by apply prefix_app_r.
Qed.

Lemma confined_extract_member (into : path) (m : ZipMember) :
  confined into (extract_member into m).
Proof.
  unfold extract_member.
  change (confined into
            ((present <- path_exists (dirname (into ++ filename m)) ;;
              (if present then ret tt
               else fs_run (FS.makedirs (dirname (into ++ filename m))))) ;;;
             (if is_dir m
              then f <- get_fs ;;
                   (if FS.isdir f (into ++ filename m) then ret tt
                    else fs_try (FS.mkdir (into ++ filename m)))
              else match data m with
                   | Some source =>
                       fs_try (FS.open_wb (into ++ filename m)) ;;;
                       put_fs_write (into ++ filename m) source
                   | None => raise BadZipFile
                   end))).
  assert (into `prefix_of` into ++ filename m) as Hpre by by apply prefix_app_r.
  apply confined_bind; [apply confined_upperdirs|]. intros _.
  destruct (is_dir m).
  - apply confined_bind; [apply confined_get_fs|]. intros f.
    destruct (FS.isdir f _); [apply confined_ret|by apply confined_mkdir].
  - destruct (data m); [|apply confined_raise].
    apply confined_bind; [by apply confined_open_wb|]. intros _.
    by apply confined_put_fs_write.
Qed.

Section Frame.

Context {SavedModel : Type} (E : Env SavedModel).

Lemma confined_http_get (dir : path) (target : json) : confined dir (http_get E target).
Proof. apply confined_same. by intros w r w' [= <- <-]. Qed.

Lemma confined_sha256 (dir p : path) (progress : bool) :
  confined dir (_get_sha256_hash_of_file E p progress).
Proof.
  unfold _get_sha256_hash_of_file.
  apply confined_bind; [apply confined_fs_read|]. intros body. apply confined_ret.
Qed.

Lemma confined_save_and_verify (dir dest : path) (self : HubModel) (progress : bool) :
  dir `prefix_of` dest ->
  confined dir (_save_and_verify_model E self dest progress).
Proof.
  intros Hpre. unfold _save_and_verify_model.
  apply confined_bind; [by apply confined_open_wb|]. intros _.
  apply confined_bind; [apply confined_http_get|]. intros resp.
  apply confined_bind.
  { unfold raise_for_status. destruct (_ && _); [apply confined_raise|apply confined_ret]. }
  intros _. destruct (content_length resp) as [announced|].
  - apply confined_bind; [apply confined_lift|]. intros total.
    apply confined_bind.
    { apply confined_for_each. intros data.
      apply confined_bind; [|intros _; by apply confined_put_fs_write].
      destruct (_ && _); [apply confined_raise|apply confined_ret]. }
    intros _. destruct (stream_error resp); [apply confined_raise|].
    apply confined_bind; [apply confined_sha256|]. intros digest.
    destruct (differs_from _ _); [apply confined_raise|apply confined_ret].
  - destruct (stream_error resp); [apply confined_raise|].
    by apply confined_put_fs_write.
Qed.

Lemma confined_extractall (archive into : path) :
  confined into (extractall E archive into).
Proof.
  unfold extractall.
  apply confined_bind; [apply confined_fs_read|]. intros packed.
  destruct (zip_members E packed) as [members|]; [|apply confined_raise].
  apply confined_bind; [apply confined_emit|]. intros _.
  apply confined_for_each. intros m. apply confined_extract_member.
Qed.

Lemma confined_download_model_body (self : HubModel) (mt : model_type_arg)
    (progress : bool) :
  confined (model_dir self) (download_model_body E self mt progress).
Proof.
  unfold download_model_body. destruct mt as [[]|shown]; [|apply confined_raise].
  assert (model_dir self `prefix_of` path_join (model_dir self) "model.zip") as Hpre
    by by apply prefix_app_r.
  apply confined_bind; [by apply confined_save_and_verify|]. intros _.
  apply confined_bind; [apply confined_extractall|]. intros _.
  by apply confined_remove.
Qed.

End Frame.

Lemma set_fs_same (w : World) : set_fs (fs w) w = w.
Proof. by destruct w. Qed.

(** A regular file met on the way stops the creation of directories before
    anything is made. *)
Lemma makedirs_from_file (pre : path) : forall (base more : path) (f : gmap path FS.node) c,
  FS.wf f -> pre <> [] -> f !! (base ++ pre) = Some (FS.File c) ->
  FS.makedirs_from base (pre ++ more) f
  = (Some (match more with [] => FileExistsError | _ => NotADirectoryError end), f).
Proof.
  induction pre as [|x pre IH]; intros base more f c Hwf Hne Hfile; [done|].
  destruct pre as [|y pre].
  - simpl. by rewrite Hfile.
  - assert (f !! (base ++ [x]) = Some FS.Dir) as Hdir.
    { eapply (wf_ancestor f (y :: pre) (base ++ [x])); [done| |done|by destruct base].
      by rewrite <- app_assoc. }
    change ((x :: y :: pre) ++ more) with (x :: ((y :: pre) ++ more)).
    cbn [FS.makedirs_from]. rewrite Hdir.
    eapply IH; [done|done|]. by rewrite <- app_assoc.
Qed.

Section DownloadFacts.

Context {SavedModel : Type} (E : Env SavedModel).

(** Outside [model_dir], the file system [download_model] leaves is the one
    its first step, the creation of the directory, left. *)
Lemma download_model_outside (self : HubModel) (mt : model_type_arg) (progress : bool)
    (w w' : World) (r : exn + path) :
  FS.wf (fs w) ->
  download_model E self mt progress w = (r, w') ->
  forall p, ~ model_dir self `prefix_of` p ->
    fs w' !! p = (FS.makedirs_from [] (model_dir self) (fs w)).2 !! p.
Proof.
  intros Hwf Hrun p Hp.
  destruct (decide (model_dir self = [])) as [Hnil|Hne].
  { exfalso. apply Hp. rewrite Hnil. apply prefix_nil. }
  unfold download_model, bind at 1, fs_run, FS.mkdir_parents_exist_ok in Hrun.
  pose proof (wf_makedirs_from (model_dir self) [] (fs w) Hwf (isdir_root _)) as Hwf1.
  pose proof (makedirs_from_made (model_dir self) [] (fs w)) as Hmade.
  destruct (FS.makedirs_from [] (model_dir self) (fs w)) as [[e|] f1] eqn:Hmk; simpl in *.
  { by inversion Hrun; subst. }
  specialize (Hmade f1 eq_refl Hne).
  unfold bind, try_except in Hrun.
  destruct (download_model_body E self mt progress (set_fs f1 w)) as [[e|[]] w2] eqn:Hbody.
  - destruct (confined_download_model_body E self mt progress _ _ _ Hbody) as [_ Hout];
      [by split|].
    inversion Hrun; subst. simpl. rewrite rmtree_outside by done. by apply Hout.
  - destruct (confined_download_model_body E self mt progress _ _ _ Hbody) as [_ Hout];
      [by split|].
    inversion Hrun; subst. by apply Hout.
Qed.

End DownloadFacts.

(** X6: outside its model directory [download_model] removes and rewrites
    nothing, whether it returns or raises; all it may add there are the
    missing directories above the model directory. *)
Theorem download_model_frame {SavedModel : Type} (E : Env SavedModel)
    (self : HubModel) (mt : model_type_arg) (progress : bool)
    (w w' : World) (r : exn + path) :
  FS.wf (fs w) ->
  download_model E self mt progress w = (r, w') ->
  (forall p n, ~ model_dir self `prefix_of` p ->
     fs w !! p = Some n -> fs w' !! p = Some n)
  /\ (forall p n, ~ model_dir self `prefix_of` p ->
        fs w !! p = None -> fs w' !! p = Some n ->
        n = FS.Dir /\ p `prefix_of` model_dir self).
Proof.
  intros Hwf Hrun. split.
  - intros p n Hp Hold. rewrite (download_model_outside E _ _ _ _ _ _ Hwf Hrun p Hp).
    by apply makedirs_from_keeps.
  - intros p n Hp Hold Hnew.
    rewrite (download_model_outside E _ _ _ _ _ _ Hwf Hrun p Hp) in Hnew. split.
    + by eapply makedirs_from_new.
    + destruct (decide (p `prefix_of` model_dir self)) as [|Hnot]; [done|].
      rewrite (makedirs_from_elsewhere (model_dir self) [] (fs w) p Hnot) in Hnew.
      congruence.
Qed.

(** X7: when the model directory or a directory above it is a regular file,
    [download_model] raises the error of [mkdir] and nothing else happens:
    no external call, no clean-up, the file stays. *)
Theorem download_model_blocked_by_file {SavedModel : Type} (E : Env SavedModel)
    (self : HubModel) (mt : model_type_arg) (progress : bool)
    (w : World) (above below : path) (c : bytes) :
  FS.wf (fs w) ->
  model_dir self = above ++ below ->
  above <> [] ->
  fs w !! above = Some (FS.File c) ->
  download_model E self mt progress w
  = (inl (match below with [] => FileExistsError | _ => NotADirectoryError end), w).
Proof.
  intros Hwf Hdir Hne Hfile.
  unfold download_model, bind at 1, fs_run, FS.mkdir_parents_exist_ok.
  rewrite Hdir. rewrite (makedirs_from_file above [] below (fs w) c Hwf Hne Hfile).
  by rewrite set_fs_same.
Qed.

(** ** Chunks *)

Lemma split_at_bounds {A} (l : list A) : forall (n : N) a b,
  split_at n l = (a, b) ->
  (N.of_nat (length a) <= n)%N /\ (length b <= length l)%nat
  /\ ((0 < n)%N -> l <> [] -> a <> [] /\ (length b < length l)%nat).
Proof.
  induction l as [|x l IH]; intros n a b Hs; simpl in Hs.
  - inversion Hs; subst. simpl. repeat split; try lia; done.
  - destruct (N.eqb_spec n 0) as [->|Hn].
    + inversion Hs; subst. simpl. repeat split; try lia.
    + destruct (split_at (N.pred n) l) as [a' b'] eqn:Hs'. inversion Hs; subst.
      destruct (IH _ _ _ Hs') as (Ha & Hb & _). simpl.
      repeat split; try lia; done.
Qed.

Lemma chunks_fuel_bounded {A} (fuel : nat) : forall (size : N) (l : list A),
  (0 < size)%N -> (length l <= fuel)%nat ->
  Forall (fun c => c <> [] /\ (N.of_nat (length c) <= size)%N) (chunks_fuel fuel size l).
Proof.
  induction fuel as [|fuel IH]; intros size l Hsize Hlen.
  - destruct l; [constructor|simpl in Hlen; lia].
  - destruct l as [|x l]; [constructor|].
    cbn [chunks_fuel]. destruct (split_at size (x :: l)) as [a b] eqn:Hs.
    destruct (split_at_bounds _ _ _ _ Hs) as (Ha & _ & Hne).
    destruct (Hne Hsize) as [Hane Hlt]; [done|].
    constructor; [done|]. apply IH; [done|]. simpl in *. lia.
Qed.

Lemma concat_foldl {A} (l : list (list A)) : forall fed,
  foldl (fun fed chunk => fed ++ chunk) fed l = fed ++ concat l.
Proof.
  induction l as [|c l IH]; intros fed; simpl.
  - by rewrite app_nil_r.
  - rewrite IH. by rewrite <- app_assoc.
Qed.

(** X2: reading in chunks of a positive size, as the hashing and the
    download do, loses and reorders nothing, and
    every chunk holds at least one item and at most [size]. *)
Theorem chunks_cover {A} (size : N) (l : list A) :
  (0 < size)%N ->
  concat (chunks size l) = l
  /\ Forall (fun c => c <> [] /\ (N.of_nat (length c) <= size)%N) (chunks size l).
Proof.
  intros Hsize. split.
  - pose proof (chunks_fed size l) as H. by rewrite concat_foldl in H.
  - by apply chunks_fuel_bounded.
Qed.

Section SaveFacts.

Context {SavedModel : Type} (E : Env SavedModel).

Lemma for_each_guarded_writes (dest : path) (g : bool) (l : list bytes) (w w' : World) :
  for_each l (fun data =>
                (if g then raise ZeroDivisionError else ret tt) ;;;
                put_fs_write dest data) w = (inr tt, w') ->
  w' = set_fs (foldl (fun f d => FS.write dest d f) (fs w) l) w.
Proof.
  destruct g.
  - destruct l as [|d l]; simpl.
    + intros H. inversion H; subst. by rewrite set_fs_same.
    + unfold bind, raise. intros H. inversion H.
  - rewrite for_each_writes. intros H. by inversion H.
Qed.

(** What a return of [_save_and_verify_model] tells. *)
Lemma save_and_verify_inv (self : HubModel) (dest : path) (progress : bool)
    (w w' : World) :
  _save_and_verify_model E self dest progress w = (inr tt, w') ->
  exists resp,
    requests_get E (url (_model_url_and_hash self)) = inr resp
    /\ w' = set_fs (<[dest := FS.File (content resp)]> (fs w))
              (log (EGet (url (_model_url_and_hash self))) w)
    /\ (content_length resp <> None ->
        differs_from (checksum (_model_url_and_hash self))
          (sha256_hexdigest E (content resp)) = false).
Proof.
  intros Hrun. unfold _save_and_verify_model in Hrun.
  apply bind_inr in Hrun as ([] & w1 & Hopen & Hrun).
  unfold fs_try in Hopen. destruct (FS.open_wb dest (fs w)) as [e|f] eqn:Ho; [done|].
  apply open_wb_inv in Ho as [Hne ->]. inversion Hopen; subst w1; clear Hopen.
  apply bind_inr in Hrun as (resp & w2 & Hget & Hrun).
  unfold http_get in Hget. inversion Hget as [[Hresp Hw2]]; clear Hget.
  exists resp. split; [done|].
  apply bind_inr in Hrun as ([] & w3 & Hstatus & Hrun).
  assert (w3 = w2) as ->.
  { unfold raise_for_status in Hstatus.
    destruct ((400 <=? status_code resp) && (status_code resp <? 600));
      by inversion Hstatus. }
  clear Hstatus. subst w2.
  destruct (content_length resp) as [announced|] eqn:Hlen.
  - apply bind_inr in Hrun as (total & w4 & Hint & Hrun).
    assert (w4 = log (EGet (url (_model_url_and_hash self)))
                   (set_fs (<[dest := FS.File []]> (fs w)) w)) as ->.
    { unfold lift in Hint. by inversion Hint. }
    clear Hint.
    apply bind_inr in Hrun as ([] & w5 & Hloop & Hrun).
    apply for_each_guarded_writes in Hloop. simpl in Hloop.
    rewrite (writes_append dest _ _ []) in Hloop by apply lookup_insert_eq.
    rewrite chunks_fed, insert_insert_eq in Hloop. simpl in Hloop.
    destruct (stream_error resp) as [e|]; [by inversion Hrun|].
    apply bind_inr in Hrun as (sum & w6 & Hsum & Hrun).
    rewrite (sha256_of_file E dest progress w5 (content resp)) in Hsum.
    2:{ subst w5. simpl. unfold FS.read, FS.stat. destruct dest; [done|].
        by rewrite lookup_insert_eq. }
    inversion Hsum; subst sum w6; clear Hsum.
    destruct (differs_from _ _) eqn:Hd; [by inversion Hrun|].
    inversion Hrun; subst w'. split; [by subst w5|]. done.
  - destruct (stream_error resp) as [e|]; [by inversion Hrun|].
    unfold put_fs_write in Hrun. inversion Hrun; subst w'; clear Hrun. simpl.
    split; [|done]. unfold FS.write. rewrite lookup_insert_eq, insert_insert_eq. done.
Qed.

End SaveFacts.

(** X1: [_get_sha256_hash_of_file] returns the digest of the whole content of
    the file, raises what opening the file raises, and changes nothing. *)
Theorem sha256_hash_of_whole_file {SavedModel : Type} (E : Env SavedModel)
    (p : path) (progress : bool) (w : World) :
  _get_sha256_hash_of_file E p progress w
  = (match FS.read p (fs w) with
     | inl e => inl e
     | inr body => inr (sha256_hexdigest E body)
     end, w).
Proof.
  destruct (FS.read p (fs w)) as [e|body] eqn:Hread.
  - unfold _get_sha256_hash_of_file, bind, fs_read. by rewrite Hread.
  - by apply sha256_of_file.
Qed.

(** X3: when [_save_and_verify_model] returns, the destination holds exactly
    the body of the response to the one request it made, and when the
    response announced a length the digest of that body is the expected
    checksum. *)
Theorem save_and_verify_model_returns {SavedModel : Type} (E : Env SavedModel)
    (self : HubModel) (dest : path) (progress : bool)
    (w w' : World) :
  _save_and_verify_model E self dest progress w = (inr tt, w') ->
  exists resp,
    requests_get E (url (_model_url_and_hash self)) = inr resp
    /\ w' = set_fs (<[dest := FS.File (content resp)]> (fs w))
              (log (EGet (url (_model_url_and_hash self))) w)
    /\ (content_length resp <> None ->
        differs_from (checksum (_model_url_and_hash self))
          (sha256_hexdigest E (content resp)) = false).
Proof. apply save_and_verify_inv. Qed.

(** X4: a response with a status from 400 to 599 makes [_save_and_verify_model]
    raise [HTTPError] after the destination was opened: an empty file is
    left there, whatever it held before. *)
Theorem save_and_verify_model_http_error {SavedModel : Type} (E : Env SavedModel)
    (self : HubModel) (dest : path) (progress : bool)
    (w : World) (f : gmap path FS.node) (resp : DownloadResponse) :
  FS.open_wb dest (fs w) = inr f ->
  requests_get E (url (_model_url_and_hash self)) = inr resp ->
  400 <= status_code resp < 600 ->
  _save_and_verify_model E self dest progress w
  = (inl (HTTPError (status_code resp)),
     set_fs (<[dest := FS.File []]> (fs w))
       (log (EGet (url (_model_url_and_hash self))) w)).
Proof.
  intros Hopen Hget Hcode. unfold _save_and_verify_model.
  pose proof (open_wb_inv _ _ _ Hopen) as [_ ->].
  rewrite (bind_ok _ _ w tt (set_fs (<[dest := FS.File []]> (fs w)) w))
    by (unfold fs_try; by rewrite Hopen).
  erewrite bind_ok by (unfold http_get; rewrite Hget; reflexivity).
  apply bind_fail. unfold raise_for_status.
  replace ((400 <=? status_code resp) && (status_code resp <? 600)) with true; [done|].
  symmetry. apply andb_true_iff. split; [apply Z.leb_le|apply Z.ltb_lt]; lia.
Qed.


(** ** What the calls leave in the trace *)

Lemma bind_inv {A B} (m : M A) (k : A -> M B) w r w' :
  bind m k w = (r, w') ->
  (exists e, m w = (inl e, w') /\ r = inl e)
  \/ exists y w1, m w = (inr y, w1) /\ k y w1 = (r, w').
Proof.
  unfold bind. destruct (m w) as [[e|y] w1] eqn:Hm; intros H.
  - left. exists e. by inversion H.
  - right. by exists y, w1.
Qed.

Lemma silent_ret {A} (x : A) : silent (ret x).
Proof. intros w r w' H. by inversion H. Qed.

Lemma silent_raise {A} (e : exn) : silent (@raise A e).
Proof. intros w r w' H. by inversion H. Qed.

Lemma silent_lift {A} (r : exn + A) : silent (lift r).
Proof. intros w r' w' H. by inversion H. Qed.

Lemma silent_fs_try op : silent (fs_try op).
Proof.
  intros [c f h t] r w' H. unfold fs_try in H. simpl in H.
  destruct (op f); by inversion H.
Qed.

Lemma silent_fs_run op : silent (fs_run op).
Proof.
  intros [c f h t] r w' H. unfold fs_run in H. simpl in H.
  destruct (op f) as [[e|] f']; by inversion H.
Qed.

Lemma silent_fs_read p : silent (fs_read p).
Proof. intros w r w' H. by inversion H. Qed.

Lemma silent_path_exists p : silent (path_exists p).
Proof. intros w r w' H. by inversion H. Qed.

Lemma silent_get_fs : silent get_fs.
Proof. intros w r w' H. by inversion H. Qed.

Lemma silent_put_fs_write p d : silent (put_fs_write p d).
Proof. intros [c f h t] r w' H. by inversion H. Qed.

Lemma silent_bind {A B} (m : M A) (k : A -> M B) :
  silent m -> (forall x, silent (k x)) -> silent (bind m k).
Proof.
  intros Hm Hk w r w' H. apply bind_inv in H as [(e & H & _)|(y & w1 & H1 & H2)].
  - by eapply Hm.
  - destruct (Hm _ _ _ H1) as (Hc & Hh & Ht). destruct (Hk _ _ _ _ H2) as (Hc' & Hh' & Ht').
    repeat split; congruence.
Qed.

Lemma silent_for_each {A} (l : list A) (body : A -> M unit) :
  (forall x, silent (body x)) -> silent (for_each l body).
Proof.
  intros Hbody. induction l as [|x l IH]; simpl.
  - apply silent_ret.
  - apply silent_bind; [done|]. by intros _.
Qed.

Create HintDb silent.

#[local] Hint Resolve silent_ret silent_raise silent_lift silent_fs_try silent_fs_run
  silent_fs_read silent_path_exists silent_get_fs silent_put_fs_write : silent.

Ltac silent_step :=
  first [ apply silent_bind; [|intros ?]
        | apply silent_for_each; intros ?
        | match goal with |- silent (if ?b then _ else _) => destruct b end
        | match goal with |- silent (match ?x with _ => _ end) => destruct x end
        | solve [auto with silent] ].

Lemma silent_extract_member into m : silent (extract_member into m).
Proof. unfold extract_member. repeat silent_step. Qed.

Lemma silent_sha256 {SavedModel : Type} (E : Env SavedModel) p progress :
  silent (_get_sha256_hash_of_file E p progress).
Proof. unfold _get_sha256_hash_of_file. repeat silent_step. Qed.

Lemma silent_trace {A} (m : M A) w r w' :
  silent m -> m w = (r, w') ->
  config w' = config w /\ handles w' = handles w /\ trace w' = trace w ++ [].
Proof. intros Hm H. rewrite app_nil_r. by eapply Hm. Qed.

Section Trace.

Context {SavedModel : Type} (E : Env SavedModel).

Lemma save_and_verify_trace (self : HubModel) (dest : path) (progress : bool)
    (w w' : World) (r : exn + unit) :
  _save_and_verify_model E self dest progress w = (r, w') ->
  config w' = config w /\ handles w' = handles w
  /\ exists evs, trace w' = trace w ++ evs
       /\ evs `prefix_of` [EGet (url (_model_url_and_hash self))]
       /\ (r = inr tt -> evs = [EGet (url (_model_url_and_hash self))]).
Proof.
  intros Hrun. unfold _save_and_verify_model in Hrun.
  apply bind_inv in Hrun as [(e & Hopen & ->)|([] & w1 & Hopen & Hrun)].
  { destruct (silent_fs_try _ _ _ _ Hopen) as (-> & -> & ->).
    split; [done|]. split; [done|]. exists []. rewrite app_nil_r.
    split; [done|]. split; [apply prefix_nil|done]. }
  destruct (silent_fs_try _ _ _ _ Hopen) as (Hc1 & Hh1 & Ht1).
  assert (config w' = config w1 /\ handles w' = handles w1
          /\ trace w' = trace w1 ++ [EGet (url (_model_url_and_hash self))]) as (Hc & Hh & Ht).
  { apply bind_inv in Hrun as [(e & Hget & ->)|(resp & w2 & Hget & Hrun)].
    - unfold http_get in Hget. by inversion Hget.
    - unfold http_get in Hget. inversion Hget as [[Hresp Hw2]]. clear Hget.
      assert (silent (raise_for_status (status_code resp) ;;;
        match content_length resp with
        | None =>
            match stream_error resp with
            | Some e => raise e
            | None => put_fs_write dest (content resp)
            end
        | Some total_length =>
            total <- lift (match Py.int total_length with
                           | Some n => inr n
                           | None => inl (ValueError (InvalidLiteral total_length))
                           end) ;;
            for_each (chunks 4096 (content resp))
              (fun data =>
                 (if progress && (total =? 0) then raise ZeroDivisionError else ret tt) ;;;
                 put_fs_write dest data) ;;;
            match stream_error resp with
            | Some e => raise e
            | None =>
                file_checksum <- _get_sha256_hash_of_file E dest progress ;;
                if differs_from (checksum (_model_url_and_hash self)) file_checksum
                then raise (RuntimeError (ChecksumMismatch file_checksum
                                            (checksum (_model_url_and_hash self))))
                else ret tt
            end
        end)) as Hrest.
      { unfold raise_for_status.
        repeat first [ apply silent_sha256 | silent_step ]. }
      destruct (Hrest _ _ _ Hrun) as (-> & -> & ->). by subst w2. }
  split; [congruence|]. split; [congruence|].
  exists [EGet (url (_model_url_and_hash self))]. split; [congruence|]. done.
Qed.

Lemma extractall_trace (archive into : path) (w w' : World) (r : exn + unit) :
  extractall E archive into w = (r, w') ->
  config w' = config w /\ handles w' = handles w
  /\ exists evs, trace w' = trace w ++ evs
       /\ evs `prefix_of` [EExtract archive into]
       /\ (r = inr tt -> evs = [EExtract archive into]).
Proof.
  intros Hrun. unfold extractall in Hrun.
  apply bind_inv in Hrun as [(e & Hread & ->)|(packed & w1 & Hread & Hrun)].
  { inversion Hread; subst. repeat split; try done. exists []. rewrite app_nil_r.
    split; [done|]. split; [apply prefix_nil|done]. }
  inversion Hread; subst w1; clear Hread.
  destruct (zip_members E packed) as [members|].
  - apply bind_inv in Hrun as [(e & Hemit & ->)|([] & w2 & Hemit & Hrun)];
      [by inversion Hemit|].
    inversion Hemit; subst w2; clear Hemit.
    assert (silent (for_each members (extract_member into))) as Hloop.
    { apply silent_for_each. intros m. apply silent_extract_member. }
    destruct (Hloop _ _ _ Hrun) as (-> & -> & ->). repeat split; try done.
    by exists [EExtract archive into].
  - inversion Hrun; subst. repeat split; try done. exists []. rewrite app_nil_r.
    split; [done|]. split; [apply prefix_nil|done].
Qed.

Lemma download_model_body_trace (self : HubModel) (mt : model_type_arg) (progress : bool)
    (w w' : World) (r : exn + unit) :
  download_model_body E self mt progress w = (r, w') ->
  config w' = config w /\ handles w' = handles w
  /\ exists evs, trace w' = trace w ++ evs
       /\ evs `prefix_of` [EGet (url (_model_url_and_hash self));
                           EExtract (path_join (model_dir self) "model.zip") (model_dir self)]
       /\ (r = inr tt ->
           evs = [EGet (url (_model_url_and_hash self));
                  EExtract (path_join (model_dir self) "model.zip") (model_dir self)]).
Proof.
  intros Hrun. unfold download_model_body in Hrun.
  destruct mt as [[]|other].
  - apply bind_inv in Hrun as [(e & Hsave & ->)|([] & w1 & Hsave & Hrun)].
    { destruct (save_and_verify_trace _ _ _ _ _ _ Hsave) as (Hc & Hh & evs & Ht & Hpre & _).
      repeat split; try done. exists evs. split; [done|]. split; [|done].
      etrans; [exact Hpre|]. by exists [EExtract (path_join (model_dir self) "model.zip")
                                          (model_dir self)]. }
    destruct (save_and_verify_trace _ _ _ _ _ _ Hsave) as (Hc & Hh & evs & Ht & _ & Hall).
    rewrite (Hall eq_refl) in Ht. clear Hall evs.
    apply bind_inv in Hrun as [(e & Hex & ->)|([] & w2 & Hex & Hrun)].
    { destruct (extractall_trace _ _ _ _ _ Hex) as (Hc' & Hh' & evs & Ht' & Hpre & _).
      split; [congruence|]. split; [congruence|].
      exists (EGet (url (_model_url_and_hash self)) :: evs).
      split; [rewrite Ht', Ht; by rewrite <- app_assoc|].
      split; [by apply prefix_cons|done]. }
    destruct (extractall_trace _ _ _ _ _ Hex) as (Hc' & Hh' & evs & Ht' & _ & Hall).
    rewrite (Hall eq_refl) in Ht'. clear Hall evs.
    destruct (silent_fs_try _ _ _ _ Hrun) as (Hc'' & Hh'' & Ht'').
    split; [congruence|]. split; [congruence|].
    eexists. split; [rewrite Ht'', Ht', Ht; by rewrite <- app_assoc|]. done.
  - inversion Hrun; subst. repeat split; try done. exists []. rewrite app_nil_r.
    split; [done|]. split; [apply prefix_nil|done].
Qed.

End Trace.

Lemma download_model_trace {SavedModel : Type} (E : Env SavedModel)
    (self : HubModel) (mt : model_type_arg) (progress : bool) (w w' : World)
    (r : exn + path) :
  download_model E self mt progress w = (r, w') ->
  config w' = config w /\ handles w' = handles w
  /\ exists evs, trace w' = trace w ++ evs
       /\ evs `prefix_of`
            [EGet (url (_model_url_and_hash self));
             EExtract (path_join (model_dir self) "model.zip") (model_dir self)]
       /\ (forall folder, r = inr folder ->
           folder = model_dir self
           /\ evs = [EGet (url (_model_url_and_hash self));
                     EExtract (path_join (model_dir self) "model.zip") (model_dir self)]).
Proof.
  intros Hrun. unfold download_model in Hrun.
  apply bind_inv in Hrun as [(e & Hmk & ->)|([] & w1 & Hmk & Hrun)].
  { destruct (silent_fs_run _ _ _ _ Hmk) as (-> & -> & ->). repeat split; try done.
    exists []. rewrite app_nil_r. split; [done|]. split; [apply prefix_nil|done]. }
  destruct (silent_fs_run _ _ _ _ Hmk) as (Hc1 & Hh1 & Ht1).
  unfold bind, try_except in Hrun.
  destruct (download_model_body E self mt progress w1) as [[e|[]] w2] eqn:Hbody.
  - destruct (download_model_body_trace E _ _ _ _ _ _ Hbody) as (Hc & Hh & evs & Ht & Hpre & _).
    inversion Hrun; subst r w'; clear Hrun. simpl.
    split; [congruence|]. split; [congruence|].
    exists evs. split; [congruence|]. done.
  - destruct (download_model_body_trace E _ _ _ _ _ _ Hbody) as (Hc & Hh & evs & Ht & Hpre & Hall).
    inversion Hrun; subst r w'; clear Hrun.
    split; [congruence|]. split; [congruence|].
    exists evs. split; [congruence|]. split; [done|].
    intros folder Hf. inversion Hf. split; [done|]. by apply Hall.
Qed.

(** X8: [download_model] makes at most one request, to the signed URL of the
    handle, then at most one extraction, in this order; it never calls the
    registry or the model loader, and leaves [_config] and the handles as
    they are.  When it returns, it returns [model_dir] after exactly the
    request and the extraction. *)
Theorem download_model_calls {SavedModel : Type} (E : Env SavedModel)
    (self : HubModel) (mt : model_type_arg) (progress : bool) (w : World) :
  let out := download_model E self mt progress w in
  let calls := [EGet (url (_model_url_and_hash self));
                EExtract (path_join (model_dir self) "model.zip") (model_dir self)] in
  config out.2 = config w /\ handles out.2 = handles w
  /\ exists evs, trace out.2 = trace w ++ evs
       /\ evs `prefix_of` calls
       /\ (forall folder, out.1 = inr folder -> folder = model_dir self /\ evs = calls).
Proof.
  intros out calls. subst out calls.
  destruct (download_model E self mt progress w) as [r w'] eqn:Hrun.
  exact (download_model_trace E _ _ _ _ _ _ Hrun).
Qed.

(** ** What the extraction leaves *)

Lemma extract_member_file (into : path) (m : ZipMember) (w w' : World) :
  extract_member into m w = (inr tt, w') -> is_dir m = false ->
  exists d, data m = Some d /\ fs w' !! (into ++ filename m) = Some (FS.File d).
Proof.
  intros Hrun Hfile. unfold extract_member in Hrun.
  apply bind_inr in Hrun as (present & w1 & _ & Hrun).
  apply bind_inr in Hrun as ([] & w2 & _ & Hrun).
  rewrite Hfile in Hrun. destruct (data m) as [d|]; [|inversion Hrun; by subst].
  exists d. split; [done|].
  apply bind_inr in Hrun as ([] & w3 & Hopen & Hrun).
  unfold fs_try in Hopen. destruct (FS.open_wb _ (fs w2)) as [e|f] eqn:Ho; [done|].
  apply open_wb_inv in Ho as [_ ->]. inversion Hopen; subst w3; clear Hopen.
  unfold put_fs_write in Hrun. inversion Hrun; subst w'; clear Hrun. simpl.
  unfold FS.write. rewrite lookup_insert_eq. by rewrite lookup_insert_eq.
Qed.

Lemma extract_member_keeps (into : path) (m : ZipMember) (w w' : World)
    (r : exn + unit) (p : path) (n : FS.node) :
  extract_member into m w = (r, w') -> p <> into ++ filename m ->
  fs w !! p = Some n -> fs w' !! p = Some n.
Proof.
  intros Hrun Hp Hold. unfold extract_member in Hrun.
  apply bind_inv in Hrun as [(e & H & _)|(present & w1 & Hex & Hrun)];
    [unfold path_exists in H; by inversion H|].
  unfold path_exists in Hex.
  inversion Hex; subst w1; clear Hex.
  assert (forall w1 (r1 : exn + unit),
            (if present then ret tt else fs_run (FS.makedirs (dirname (into ++ filename m)))) w
            = (r1, w1) -> fs w1 !! p = Some n) as Hup.
  { intros w1 r1 H. destruct present; [unfold ret in H; inversion H; by subst|].
    unfold fs_run, FS.makedirs in H.
    pose proof (makedirs_from_keeps (dirname (into ++ filename m)) [] (fs w) p _ Hold) as Hk.
    destruct (FS.makedirs_from [] (dirname (into ++ filename m)) (fs w)) as [[e|] f];
      by inversion H. }
  apply bind_inv in Hrun as [(e & H & _)|([] & w2 & Hmk & Hrun)]; [by eapply Hup|].
  apply Hup in Hmk. clear Hup Hold.
  destruct (is_dir m).
  - apply bind_inv in Hrun as [(e & H & _)|(f & w3 & Hget & Hrun)];
      [unfold get_fs in H; by inversion H|].
    unfold get_fs in Hget.
    inversion Hget; subst f w3; clear Hget.
    destruct (FS.isdir _ _); [unfold ret in Hrun; inversion Hrun; by subst|].
    unfold fs_try, FS.mkdir in Hrun.
    destruct (FS.stat (fs w2) (into ++ filename m)) as [n'|]; [inversion Hrun; by subst|].
    destruct (FS.stat (fs w2) (dirname (into ++ filename m))) as [[|c]|];
      inversion Hrun; subst; try done.
    simpl. by rewrite lookup_insert_ne.
  - destruct (data m) as [source|]; [|unfold raise in Hrun; inversion Hrun; by subst].
    assert (forall w3 (r3 : exn + unit),
              fs_try (FS.open_wb (into ++ filename m)) w2 = (r3, w3) ->
              fs w3 !! p = Some n) as Hopen.
    { intros w3 r3 H. unfold fs_try in H.
      destruct (FS.open_wb _ (fs w2)) as [e|f] eqn:Ho; [inversion H; by subst|].
      apply open_wb_inv in Ho as [_ ->]. inversion H; subst. simpl.
      by rewrite lookup_insert_ne. }
    apply bind_inv in Hrun as [(e & H & _)|([] & w3 & Ho & Hrun)]; [by eapply Hopen|].
    apply Hopen in Ho. unfold put_fs_write in Hrun. inversion Hrun; subst. simpl.
    unfold FS.write. destruct (fs w3 !! (into ++ filename m)) as [[|c]|]; try done.
    by rewrite lookup_insert_ne.
Qed.

Lemma for_each_app {A} (l1 l2 : list A) (body : A -> M unit) : forall (w w' : World),
  for_each (l1 ++ l2) body w = (inr tt, w') ->
  exists w1, for_each l1 body w = (inr tt, w1) /\ for_each l2 body w1 = (inr tt, w').
Proof.
  induction l1 as [|x l1 IH]; intros w w' Hrun; simpl in *.
  - by exists w.
  - apply bind_inr in Hrun as ([] & w1 & Hx & Hrun).
    destruct (IH _ _ Hrun) as (w2 & H1 & H2). exists w2. split; [|done].
    by rewrite (bind_ok _ _ _ _ _ Hx).
Qed.

Lemma for_each_extract_keeps (into : path) (after : list ZipMember) (p : path)
    (n : FS.node) : forall (w w' : World),
  for_each after (extract_member into) w = (inr tt, w') ->
  (forall m, m ∈ after -> p <> into ++ filename m) ->
  fs w !! p = Some n -> fs w' !! p = Some n.
Proof.
  induction after as [|m after IH]; intros w w' Hrun Hnames Hold; simpl in Hrun.
  - inversion Hrun; by subst.
  - apply bind_inr in Hrun as ([] & w1 & Hm & Hrun).
    eapply IH; [done| |].
    + intros m' Hin. apply Hnames. by right.
    + eapply extract_member_keeps; [done| |done]. apply Hnames. by left.
Qed.

Section Extraction.

Context {SavedModel : Type} (E : Env SavedModel).

Lemma download_model_inr (self : HubModel) (mt : model_type_arg) (progress : bool)
    (w w' : World) (folder : path) :
  download_model E self mt progress w = (inr folder, w') ->
  folder = model_dir self
  /\ exists w1, fs_run (FS.mkdir_parents_exist_ok (model_dir self)) w = (inr tt, w1)
       /\ download_model_body E self mt progress w1 = (inr tt, w').
Proof.
  intros Hrun. unfold download_model in Hrun.
  apply bind_inr in Hrun as ([] & w1 & Hmk & Hrun).
  apply bind_inr in Hrun as ([] & w2 & Htry & Hrun).
  inversion Hrun; subst. split; [done|]. exists w1. split; [done|].
  eapply try_except_inr; [|exact Htry].
  intros e v. by eexists _, _.
Qed.

(** The steps of a [download_model] that returns. *)
Lemma download_model_steps (self : HubModel) (mt : model_type_arg) (progress : bool)
    (w w' : World) (folder : path) :
  download_model E self mt progress w = (inr folder, w') ->
  let archive := path_join (model_dir self) "model.zip" in
  exists w1 resp members w3,
    fs_run (FS.mkdir_parents_exist_ok (model_dir self)) w = (inr tt, w1)
    /\ requests_get E (url (_model_url_and_hash self)) = inr resp
    /\ (content_length resp <> None ->
        differs_from (checksum (_model_url_and_hash self))
          (sha256_hexdigest E (content resp)) = false)
    /\ zip_members E (content resp) = Some members
    /\ for_each members (extract_member (model_dir self))
         (log (EExtract archive (model_dir self))
            (set_fs (<[archive := FS.File (content resp)]> (fs w1))
               (log (EGet (url (_model_url_and_hash self))) w1)))
       = (inr tt, w3)
    /\ fs w' = delete archive (fs w3).
Proof.
  intros Hrun archive. apply download_model_inr in Hrun as (_ & w1 & Hmk & Hbody).
  unfold download_model_body in Hbody. destruct mt as [[]|other]; [|inversion Hbody].
  apply bind_inr in Hbody as ([] & w2 & Hsave & Hbody).
  apply save_and_verify_inv in Hsave as (resp & Hget & Hw2 & Hsum).
  apply bind_inr in Hbody as ([] & w3 & Hex & Hrm).
  unfold extractall in Hex.
  apply bind_inr in Hex as (packed & w2' & Hread & Hex).
  unfold fs_read in Hread. inversion Hread as [[Hpacked Hw2']]; clear Hread. subst w2'.
  assert (packed = content resp) as ->.
  { subst w2. simpl in Hpacked. unfold FS.read, path_join in Hpacked.
    rewrite stat_snoc, lookup_insert_eq in Hpacked. by inversion Hpacked. }
  clear Hpacked.
  destruct (zip_members E (content resp)) as [members|] eqn:Hzip; [|inversion Hex].
  apply bind_inr in Hex as ([] & w4 & Hemit & Hloop).
  unfold emit in Hemit. inversion Hemit; subst w4; clear Hemit. subst w2.
  exists w1, resp, members, w3. repeat split; try done.
  unfold fs_try, FS.remove in Hrm. fold archive in Hrm.
  destruct (FS.stat (fs w3) archive) as [[|c]|]; inversion Hrm; by subst w'.
Qed.

End Extraction.

(** X9: when [download_model] returns, the archive it extracted is the body of
    the response, with the expected digest when the response announced a
    length; every file of the archive that no later member of the same
    name replaces, and that is not named [model.zip], is in [model_dir]
    under its name with exactly its bytes. *)
Theorem download_model_extracts {SavedModel : Type} (E : Env SavedModel)
    (self : HubModel) (mt : model_type_arg) (progress : bool)
    (w w' : World) (folder : path) :
  download_model E self mt progress w = (inr folder, w') ->
  exists resp members,
    requests_get E (url (_model_url_and_hash self)) = inr resp
    /\ zip_members E (content resp) = Some members
    /\ (content_length resp <> None ->
        differs_from (checksum (_model_url_and_hash self))
          (sha256_hexdigest E (content resp)) = false)
    /\ forall before m after,
         members = before ++ m :: after ->
         is_dir m = false ->
         (forall m', m' ∈ after -> filename m' <> filename m) ->
         filename m <> ["model.zip"%string] ->
         exists d, data m = Some d
                   /\ fs w' !! (model_dir self ++ filename m) = Some (FS.File d).
Proof.
  intros Hrun.
  apply download_model_steps in Hrun
    as (w1 & resp & members & w3 & _ & Hget & Hsum & Hzip & Hloop & Hfs).
  exists resp, members. split; [done|]. split; [done|]. split; [done|].
  intros before m after -> Hfile Hlast Hname.
  apply for_each_app in Hloop as (w5 & _ & Hloop). simpl in Hloop.
  apply bind_inr in Hloop as ([] & w6 & Hm & Hafter).
  destruct (extract_member_file _ _ _ _ Hm Hfile) as (d & Hd & Hthere).
  exists d. split; [done|]. rewrite Hfs.
  rewrite lookup_delete_ne.
  - eapply for_each_extract_keeps; [exact Hafter| |done].
    intros m' Hin Heq. apply app_inv_head in Heq. by eapply Hlast.
  - unfold path_join. intros Heq. apply app_inv_head in Heq. done.
Qed.

(** X10: nothing is cleared before the extraction: an entry that was there
    before [download_model], under [model_dir] or not, is still there
    unchanged when it returns, unless it is [model.zip] or has the path of
    a member of the archive. *)
Theorem download_model_keeps_unlisted {SavedModel : Type} (E : Env SavedModel)
    (self : HubModel) (mt : model_type_arg)
    (progress : bool) (w w' : World) (folder : path) (p : path) (n : FS.node) :
  download_model E self mt progress w = (inr folder, w') ->
  fs w !! p = Some n ->
  p <> path_join (model_dir self) "model.zip" ->
  (forall resp members m,
     requests_get E (url (_model_url_and_hash self)) = inr resp ->
     zip_members E (content resp) = Some members ->
     m ∈ members -> p <> model_dir self ++ filename m) ->
  fs w' !! p = Some n.
Proof.
  intros Hrun Hold Hzip Hmembers.
  apply download_model_steps in Hrun
    as (w1 & resp & members & w3 & Hmk & Hget & _ & Hmem & Hloop & Hfs).
  rewrite Hfs. rewrite lookup_delete_ne by done.
  eapply for_each_extract_keeps; [exact Hloop| |].
  - intros m Hin. by eapply Hmembers.
  - simpl. rewrite lookup_insert_ne by done.
    unfold fs_run, FS.mkdir_parents_exist_ok in Hmk.
    pose proof (makedirs_from_keeps (model_dir self) [] (fs w) p n Hold) as Hk.
    destruct (FS.makedirs_from [] (model_dir self) (fs w)) as [[e|] f]; inversion Hmk.
    by subst.
Qed.

(** X11: [load_tf_model] calls the TensorFlow loader last and at most once.  When
    [model_dir] exists and no download is forced, that call is all it
    does; otherwise the loader is called only after the request and the
    extraction of a download that returned, and a download that raises
    ends the call with an error before the loader is reached.  The
    registry is never called. *)
Theorem load_tf_model_calls {SavedModel : Type} (E : Env SavedModel)
    (self : HubModel) (force_download progress : bool) (w : World) :
  let out := load_tf_model E self force_download progress w in
  let saved := path_join (model_dir self) "saved_model" in
  let download := [EGet (url (_model_url_and_hash self));
                   EExtract (path_join (model_dir self) "model.zip") (model_dir self)] in
  config out.2 = config w /\ handles out.2 = handles w
  /\ exists evs, trace out.2 = trace w ++ evs
       /\ if force_download || negb (FS.exists_ (fs w) (model_dir self))
          then evs = download ++ [ESavedModelLoad saved]
               \/ (evs `prefix_of` download /\ exists e, out.1 = inl e)
          else evs = [ESavedModelLoad saved] /\ fs out.2 = fs w.
Proof.
  intros out saved download. subst out saved download.
  unfold load_tf_model.
  rewrite (bind_ok _ _ w (FS.exists_ (fs w) (model_dir self)) w) by reflexivity.
  destruct (force_download || negb (FS.exists_ (fs w) (model_dir self))).
  - unfold bind.
    destruct (download_model E self (Member TF) progress w) as [[e|folder] w1] eqn:Hrun.
    + destruct (download_model_trace E _ _ _ _ _ _ Hrun) as (Hc & Hh & evs & Ht & Hpre & _).
      simpl. split; [done|]. split; [done|]. exists evs. split; [done|].
      right. split; [done|]. by exists e.
    + destruct (download_model_trace E _ _ _ _ _ _ Hrun) as (Hc & Hh & evs & Ht & _ & Hall).
      destruct (Hall folder eq_refl) as [_ ->]. simpl.
      split; [done|]. split; [done|]. eexists. split; [|by left].
      rewrite Ht. by rewrite <- app_assoc.
  - simpl. split; [done|]. split; [done|]. by eexists.
Qed.

(** X12: a forced download that raises, on a cache that was in place, ends
    [load_tf_model] with the same error; the loader is not called and
    nothing at or below [model_dir] is left. *)
Theorem load_tf_model_forced_failure {SavedModel : Type} (E : Env SavedModel)
    (self : HubModel) (progress : bool)
    (w w1 : World) (e : exn) :
  FS.wf (fs w) ->
  fs w !! model_dir self = Some FS.Dir ->
  download_model E self (Member TF) progress w = (inl e, w1) ->
  load_tf_model E self true progress w = (inl e, w1)
  /\ (forall p, model_dir self `prefix_of` p -> fs w1 !! p = None).
Proof.
  intros Hwf Hdir Hrun. split.
  - unfold load_tf_model.
    rewrite (bind_ok _ _ w (FS.exists_ (fs w) (model_dir self)) w) by reflexivity.
    simpl. unfold bind. by rewrite Hrun.
  - unfold download_model in Hrun.
    assert (fs_run (FS.mkdir_parents_exist_ok (model_dir self)) w = (inr tt, w)) as Hmk.
    { unfold fs_run, FS.mkdir_parents_exist_ok.
      rewrite (makedirs_from_present (model_dir self) [] (fs w) Hwf Hdir).
      by rewrite set_fs_same. }
    rewrite (bind_ok _ _ _ _ _ Hmk) in Hrun.
    unfold bind, try_except in Hrun.
    destruct (download_model_body E self (Member TF) progress w) as [[e'|[]] w2] eqn:Hbody;
      [|by inversion Hrun].
    inversion Hrun; subst e' w1; clear Hrun. simpl.
    intros p Hp. apply rmtree_removes; [|done].
    by eapply (keeps_dirs_download_model_body E).
Qed.

(** ** Resolution: what a return tells *)

Lemma raise_for_status_inr (code : Z) (w w' : World) :
  raise_for_status code w = (inr tt, w') ->
  (400 <=? code) && (code <? 600) = false /\ w' = w.
Proof.
  unfold raise_for_status. destruct ((400 <=? code) && (code <? 600)); intros H.
  - inversion H.
  - by inversion H.
Qed.

Lemma getitem_inr (obj : json) (key : string) (v : json) (w w' : World) :
  getitem obj key w = (inr v, w') ->
  exists fields, obj = JObj fields /\ assoc key fields = Some v /\ w' = w.
Proof.
  unfold getitem. destruct obj as [| | | | |fields]; try (intros H; by inversion H).
  destruct (assoc key fields) as [v'|] eqn:Ha; intros H; inversion H; subst.
  by exists fields.
Qed.

(** X13: the resolution returns exactly when the registry answers, with a status
    outside 400..599, a JSON object whose [status] is ["ready"] and that has
    the fields [projectSecretNeeded], [signedUrl] and [hash]; the pair
    returned holds the last two as they came, strings or not. *)
Theorem resolve_returns {SavedModel : Type} (E : Env SavedModel)
    (key : string) (secret : option string) (w w' : World)
    (resolved : ModelURLWithHash) :
  _get_model_url_and_hash E key secret w = (inr resolved, w')
  <-> exists endpoint resp fields needed,
        config w !! "hub_endpoint"%string = Some endpoint
        /\ requests_post E endpoint (api_params key secret) = inr resp
        /\ (400 <=? registry_status_code resp) && (registry_status_code resp <? 600) = false
        /\ registry_json resp = Some (JObj fields)
        /\ assoc "status" fields = Some (JStr "ready")
        /\ assoc "projectSecretNeeded" fields = Some needed
        /\ assoc "signedUrl" fields = Some (url resolved)
        /\ assoc "hash" fields = Some (checksum resolved)
        /\ w' = log (EPost endpoint (api_params key secret)) w.
Proof.
  split.
  - intros Hrun. unfold _get_model_url_and_hash in Hrun.
    apply bind_inr in Hrun as (endpoint & w1 & Hcfg & Hrun).
    destruct (config w !! "hub_endpoint"%string) as [endpoint'|] eqn:Hc; [|by inversion Hcfg].
    inversion Hcfg; subst endpoint' w1; clear Hcfg.
    apply bind_inr in Hrun as (resp & w2 & Hpost & Hrun).
    unfold http_post in Hpost. inversion Hpost as [[Hresp Hw2]]; clear Hpost.
    apply bind_inr in Hrun as ([] & w3 & Hstatus & Hrun).
    apply raise_for_status_inr in Hstatus as [Hcode ->].
    apply bind_inr in Hrun as (body & w4 & Hjson & Hrun).
    unfold lift in Hjson. destruct (registry_json resp) as [body'|] eqn:Hbody;
      [|by inversion Hjson].
    inversion Hjson; subst body' w4; clear Hjson.
    apply bind_inr in Hrun as (status & w5 & Hst & Hrun).
    apply getitem_inr in Hst as (fields & -> & Hst & ->).
    destruct (differs_from status "ready") eqn:Hd; [by inversion Hrun|].
    assert (status = JStr "ready") as ->.
    { destruct status as [| | |s| |]; try done. simpl in Hd.
      apply negb_false_iff, String.eqb_eq in Hd. by subst. }
    apply bind_inr in Hrun as (needed & w6 & Hneed & Hrun).
    apply getitem_inr in Hneed as (fields' & Heq & Hneed & ->).
    inversion Heq; subst fields'; clear Heq.
    apply bind_inr in Hrun as (u & w7 & Hu & Hrun).
    apply getitem_inr in Hu as (fields' & Heq & Hu & ->).
    inversion Heq; subst fields'; clear Heq.
    apply bind_inr in Hrun as (h & w8 & Hh & Hrun).
    apply getitem_inr in Hh as (fields' & Heq & Hh & ->).
    inversion Heq; subst fields'; clear Heq.
    inversion Hrun; subst resolved w'; clear Hrun. simpl.
    by exists endpoint, resp, fields, needed.
  - intros (endpoint & resp & fields & needed & Hcfg & Hpost & Hcode & Hjson
            & Hst & Hneed & Hu & Hh & ->).
    unfold _get_model_url_and_hash.
    erewrite bind_ok; [|by rewrite Hcfg].
    erewrite bind_ok; [|unfold http_post; by rewrite Hpost].
    erewrite bind_ok; [|unfold raise_for_status; by rewrite Hcode].
    erewrite bind_ok; [|unfold lift; by rewrite Hjson].
    erewrite bind_ok; [|unfold getitem; by rewrite Hst].
    simpl.
    erewrite bind_ok; [|unfold getitem; by rewrite Hneed].
    erewrite bind_ok; [|unfold getitem; by rewrite Hu].
    erewrite bind_ok; [|unfold getitem; by rewrite Hh].
    unfold ret. by destruct resolved.
Qed.

(** X14: a ready answer that lacks one of the fields read after [status] makes
    the resolution raise [KeyError] for the first one missing, in the order
    [projectSecretNeeded], [signedUrl], [hash]; so does an object without
    [status].  A missing [projectSecretNeeded] is an error although the
    field only decides on a warning. *)
Theorem resolve_missing_field {SavedModel : Type} (E : Env SavedModel)
    (key : string) (secret : option string) (w : World)
    (endpoint : string) (resp : RegistryResponse) (fields : list (string * json)) :
  config w !! "hub_endpoint"%string = Some endpoint ->
  requests_post E endpoint (api_params key secret) = inr resp ->
  (400 <=? registry_status_code resp) && (registry_status_code resp <? 600) = false ->
  registry_json resp = Some (JObj fields) ->
  let w' := log (EPost endpoint (api_params key secret)) w in
  let required := ["status"; "projectSecretNeeded"; "signedUrl"; "hash"]%string in
  forall before missing after,
    required = before ++ missing :: after ->
    (forall k, k ∈ before -> is_Some (assoc k fields)) ->
    (before <> [] -> assoc "status" fields = Some (JStr "ready")) ->
    assoc missing fields = None ->
    _get_model_url_and_hash E key secret w = (inl (KeyError missing), w').
Proof.
  intros Hcfg Hpost Hcode Hjson w' required before missing after Hsplit Hbefore Hready Hmiss.
  unfold _get_model_url_and_hash.
  erewrite bind_ok; [|by rewrite Hcfg].
  erewrite bind_ok; [|unfold http_post; by rewrite Hpost].
  erewrite bind_ok; [|unfold raise_for_status; by rewrite Hcode].
  erewrite bind_ok; [|unfold lift; by rewrite Hjson].
  subst required.
  destruct before as [|k1 before]; simplify_eq/=.
  { erewrite bind_fail; [done|]. unfold getitem. by rewrite Hmiss. }
  rewrite (bind_ok _ _ _ (JStr "ready") w'); [|unfold getitem; by rewrite Hready].
  simpl.
  destruct before as [|k2 before]; simplify_eq/=.
  { erewrite bind_fail; [done|]. unfold getitem. by rewrite Hmiss. }
  destruct (Hbefore "projectSecretNeeded"%string) as [needed Hneed]; [set_solver|].
  erewrite bind_ok; [|unfold getitem; by rewrite Hneed].
  destruct before as [|k3 before]; simplify_eq/=.
  { erewrite bind_fail; [done|]. unfold getitem. by rewrite Hmiss. }
  destruct (Hbefore "signedUrl"%string) as [u Hu]; [set_solver|].
  erewrite bind_ok; [|unfold getitem; by rewrite Hu].
  destruct before as [|k4 before]; simplify_eq/=.
  { erewrite bind_fail; [done|]. unfold getitem. by rewrite Hmiss. }
  by destruct before.
Qed.


(** ** The label map: other files *)










(** ** Images: the dimensions of the model *)

Section ImageFacts.

Context {Image Tensor : Type} (I : ImageEnv Image Tensor).

Lemma load_image_world (image_path : path) (height width : Z) (w : World) :
  (load_image I image_path height width w).2 = w.
Proof.
  unfold load_image, bind, lift.
  destruct (image_open I (fs w) image_path) as [e|opened]; [done|].
  destruct (image_convert I opened "RGB") as [e|image]; [done|].
  by destruct (image_resize I image (height, width)) as [e|resized].
Qed.

Lemma load_image_run (image_path : path) (height width : Z) (w : World) :
  load_image I image_path height width w
  = ((load_image I image_path height width w).1, w).
Proof.
  rewrite <- (load_image_world image_path height width w) at 3.
  by destruct (load_image I image_path height width w).
Qed.

End ImageFacts.

(** X21: the first call on a handle whose model holds a [pipeline.config] reads
    the dimensions there and stores them in the handle before the image is
    opened, so also when the image cannot be loaded.  Every later call
    uses the stored dimensions and looks at neither [model_dir] nor
    [pipeline.config], whatever has become of them. *)
Theorem load_image_dimensions_memoised {Image Tensor : Type} (I : ImageEnv Image Tensor)
    (address : nat) (self : HubModel)
    (image_path : path) (w : World) (dims : Z * Z) :
  _height_width_cache self = None ->
  FS.exists_ (fs w) (model_dir self) = true ->
  FS.exists_ (fs w) (path_join (model_dir self) "pipeline.config") = true ->
  dims_from_config I (fs w) (path_join (model_dir self) "pipeline.config") = inr dims ->
  let self' := set_height_width_cache dims self in
  let w' := set_handles (<[address := self']> (handles w)) w in
  load_image_with_model_dimensions I address self image_path w
  = ((load_image I image_path dims.1 dims.2 w).1, w')
  /\ handles w' !! address = Some self'
  /\ forall later_path later,
       load_image_with_model_dimensions I address self' later_path later
       = ((load_image I later_path dims.1 dims.2 later).1, later).
Proof.
  intros Hcache Hdir Hcfg Hdims self' w'. split; [|split].
  - unfold load_image_with_model_dimensions. rewrite Hcache.
    unfold get_pipeline_config_dir, path_exists.
    unfold bind at 1. unfold bind at 1. unfold bind at 1. rewrite Hdir. simpl.
    unfold bind at 1. rewrite Hcfg. simpl.
    unfold bind at 1. rewrite Hdims.
    unfold bind at 1. unfold ret.
    fold self'. fold w'.
    rewrite (load_image_run I image_path dims.1 dims.2 w'). f_equal.
    unfold load_image, bind, lift. change (fs w') with (fs w).
    destruct (image_open I (fs w) image_path) as [e|opened]; [done|].
    destruct (image_convert I opened "RGB") as [e|image]; [done|].
    by destruct (image_resize I image (dims.1, dims.2)).
  - subst w'. simpl. by rewrite lookup_insert_eq.
  - intros later_path later. unfold load_image_with_model_dimensions. simpl.
    unfold bind at 1, ret. apply load_image_run.
Qed.

(** X22: when the dimensions cannot be read, because [model_dir] or
    [pipeline.config] is missing or the reader raises, the call raises that
    error, opens no image and stores nothing: the next call starts over. *)
Theorem load_image_dimensions_unread {Image Tensor : Type} (I : ImageEnv Image Tensor)
    (address : nat) (self : HubModel)
    (image_path : path) (w : World) (e : exn) :
  _height_width_cache self = None ->
  (get_pipeline_config_dir self w).1 = inl e
  \/ (exists p, (get_pipeline_config_dir self w).1 = inr p
                /\ dims_from_config I (fs w) p = inl e) ->
  load_image_with_model_dimensions I address self image_path w = (inl e, w).
Proof.
  intros Hcache Hfail. unfold load_image_with_model_dimensions. rewrite Hcache.
  assert ((get_pipeline_config_dir self w).2 = w) as Hw.
  { unfold get_pipeline_config_dir, bind, path_exists.
    destruct (FS.exists_ (fs w) (model_dir self)); [|done]. simpl.
    by destruct (FS.exists_ (fs w) (path_join (model_dir self) "pipeline.config")). }
  unfold bind.
  destruct (get_pipeline_config_dir self w) as [[e'|p] w1]. simpl in *. subst w1.
  - destruct Hfail as [[= ->]|(p & [=] & _)]. done.
  - simpl in *. subst w1. destruct Hfail as [[=]|(p' & [= <-] & Hd)]. by rewrite Hd.
Qed.

(** ** The further properties on concrete cases *)

Lemma download_model_frame_witness :
  FS.wf (fs Cases.stale)
  /\ download_model Witness.bad_env (Demo.handle "ffff") (Member TF) true Cases.stale
     = (inl (RuntimeError (ChecksumMismatch "5f2a" (JStr "ffff"))), Cases.refused)
  /\ fs Cases.refused !! ["home"%string; "user"%string] = Some FS.Dir.
Proof.
  assert (FS.wf (fs Cases.stale)) as H1.
  { unfold FS.wf. apply (bool_decide_unpack _). vm_compute. exact I. }
  assert (download_model Witness.bad_env (Demo.handle "ffff") (Member TF) true Cases.stale
          = (inl (RuntimeError (ChecksumMismatch "5f2a" (JStr "ffff"))), Cases.refused))
    as H2 by (vm_compute; reflexivity).
  split; [exact H1|]. split; [exact H2|].
  refine (proj1 (download_model_frame Witness.bad_env (Demo.handle "ffff") (Member TF) true
                   Cases.stale Cases.refused _ H1 H2)
            ["home"%string; "user"%string] FS.Dir _ _).
  - apply (bool_decide_unpack _). vm_compute. exact I.
  - vm_compute; reflexivity.
Defined.

Lemma download_model_blocked_by_file_witness :
  FS.wf (fs Cases.blocked)
  /\ fs Cases.blocked !! ["home"%string] = Some (FS.File [])
  /\ download_model Witness.good_env (Demo.handle "5f2a") (Member TF) true Cases.blocked
     = (inl NotADirectoryError, Cases.blocked).
Proof.
  assert (FS.wf (fs Cases.blocked)) as H1.
  { unfold FS.wf. apply (bool_decide_unpack _). vm_compute. exact I. }
  assert (fs Cases.blocked !! ["home"%string] = Some (FS.File [])) as H2
    by (vm_compute; reflexivity).
  split; [exact H1|]. split; [exact H2|].
  refine (download_model_blocked_by_file Witness.good_env (Demo.handle "5f2a") (Member TF)
            true Cases.blocked ["home"%string]
            ["user"%string; ".dataturehub"%string; "key"%string] [] H1 eq_refl _ H2).
  discriminate.
Defined.

Lemma chunks_cover_witness :
  (0 < 3)%N /\ concat (chunks 3 Demo.archive) = Demo.archive.
Proof.
  assert (0 < 3)%N as H1 by reflexivity.
  split; [exact H1|]. exact (proj1 (chunks_cover 3 Demo.archive H1)).
Defined.

Lemma save_and_verify_model_returns_witness :
  _save_and_verify_model Witness.good_env (Demo.handle "5f2a") Witness.archive_path true
    Witness.made = (inr tt, Cases.saved)
  /\ exists resp,
       requests_get Witness.good_env (url (_model_url_and_hash (Demo.handle "5f2a")))
       = inr resp
       /\ fs Cases.saved = <[Witness.archive_path := FS.File (content resp)]> (fs Witness.made).
Proof.
  assert (_save_and_verify_model Witness.good_env (Demo.handle "5f2a") Witness.archive_path
            true Witness.made = (inr tt, Cases.saved)) as H1 by (vm_compute; reflexivity).
  split; [exact H1|].
  destruct (save_and_verify_model_returns Witness.good_env (Demo.handle "5f2a")
              Witness.archive_path true Witness.made Cases.saved H1)
    as (resp & Hget & Hw & _).
  exists resp. split; [exact Hget|]. rewrite Hw. reflexivity.
Defined.

Lemma save_and_verify_model_http_error_witness :
  FS.open_wb Witness.archive_path (fs Witness.made)
  = inr (<[Witness.archive_path := FS.File []]> (fs Witness.made))
  /\ 400 <= status_code Cases.missing_response < 600
  /\ _save_and_verify_model Cases.missing_env (Demo.handle "5f2a") Witness.archive_path true
       Witness.made
     = (inl (HTTPError 404),
        set_fs (<[Witness.archive_path := FS.File []]> (fs Witness.made))
          (log (EGet (url (_model_url_and_hash (Demo.handle "5f2a")))) Witness.made)).
Proof.
  assert (FS.open_wb Witness.archive_path (fs Witness.made)
          = inr (<[Witness.archive_path := FS.File []]> (fs Witness.made))) as H1
    by reflexivity.
  assert (400 <= status_code Cases.missing_response < 600) as H2 by (simpl; lia).
  split; [exact H1|]. split; [exact H2|].
  exact (save_and_verify_model_http_error Cases.missing_env (Demo.handle "5f2a")
           Witness.archive_path true Witness.made _ Cases.missing_response H1 eq_refl H2).
Defined.


Lemma download_model_calls_witness :
  trace (download_model Witness.good_env (Demo.handle "5f2a") (Member TF) true
           Demo.empty_world).2
  = [EGet (url (_model_url_and_hash (Demo.handle "5f2a")));
     EExtract (path_join (model_dir (Demo.handle "5f2a")) "model.zip")
       (model_dir (Demo.handle "5f2a"))].
Proof.
  pose proof (download_model_calls Witness.good_env (Demo.handle "5f2a") (Member TF) true
                Demo.empty_world) as H.
  cbv zeta in H. destruct H as (_ & _ & evs & Ht & _ & Hall).
  destruct (Hall (model_dir (Demo.handle "5f2a"))) as [_ Hevs].
  - vm_compute; reflexivity.
  - rewrite Ht, Hevs. reflexivity.
Defined.

Lemma archive_members :
  zip_members Witness.good_env Demo.archive = Some Demo.members.
Proof. vm_compute; reflexivity. Qed.

Lemma populated_run :
  download_model Witness.good_env (Demo.handle "5f2a") (Member TF) true Demo.empty_world
  = (inr (model_dir (Demo.handle "5f2a")), Witness.populated).
Proof. vm_compute; reflexivity. Qed.

Lemma refreshed_run :
  download_model Witness.good_env (Demo.handle "5f2a") (Member TF) true Cases.stale
  = (inr (model_dir (Demo.handle "5f2a")), Cases.refreshed).
Proof. vm_compute; reflexivity. Qed.

Lemma old_file_unlisted (resp : DownloadResponse) (members : list ZipMember) (m : ZipMember) :
  requests_get Witness.good_env (url (_model_url_and_hash (Demo.handle "5f2a"))) = inr resp ->
  zip_members Witness.good_env (content resp) = Some members ->
  m ∈ members ->
  Cases.old_file <> model_dir (Demo.handle "5f2a") ++ filename m.
Proof.
  intros Hget Hzip Hin. injection Hget as <-.
  change (zip_members Witness.good_env Demo.archive = Some members) in Hzip.
  rewrite archive_members in Hzip. injection Hzip as <-.
  unfold Demo.members in Hin.
  repeat (apply elem_of_cons in Hin as [->|Hin];
          [apply (bool_decide_unpack _); vm_compute; exact I|]).
  by apply elem_of_nil in Hin.
Qed.

Lemma download_model_extracts_witness :
  download_model Witness.good_env (Demo.handle "5f2a") (Member TF) true Demo.empty_world
  = (inr (model_dir (Demo.handle "5f2a")), Witness.populated)
  /\ fs Witness.populated
       !! (model_dir (Demo.handle "5f2a") ++ ["pipeline.config"%string])
     = Some (FS.File (Demo.text "model {}")).
Proof.
  split; [exact populated_run|].
  destruct (download_model_extracts Witness.good_env (Demo.handle "5f2a") (Member TF) true
              Demo.empty_world Witness.populated _ populated_run)
    as (resp & members & Hget & Hzip & _ & Hall).
  injection Hget as <-.
  change (zip_members Witness.good_env Demo.archive = Some members) in Hzip.
  rewrite archive_members in Hzip. injection Hzip as <-.
  destruct (Hall
              [ {| filename := ["saved_model"%string]; is_dir := true; data := None |};
                {| filename := ["saved_model"%string; "saved_model.pb"%string];
                   is_dir := false; data := Some (Demo.text "graph") |};
                {| filename := ["label_map.pbtxt"%string]; is_dir := false;
                   data := Some (Demo.text Demo.label_map_text) |} ]
              {| filename := ["pipeline.config"%string]; is_dir := false;
                 data := Some (Demo.text "model {}") |}
              []) as (d & Hdata & Hd).
  - reflexivity.
  - reflexivity.
  - intros m' Hin. by apply elem_of_nil in Hin.
  - discriminate.
  - injection Hdata as <-. exact Hd.
Defined.

Lemma download_model_keeps_unlisted_witness :
  fs Cases.stale !! Cases.old_file = Some (FS.File (Demo.text "old"))
  /\ Cases.old_file <> path_join (model_dir (Demo.handle "5f2a")) "model.zip"
  /\ fs Cases.refreshed !! Cases.old_file = Some (FS.File (Demo.text "old")).
Proof.
  assert (fs Cases.stale !! Cases.old_file = Some (FS.File (Demo.text "old"))) as H2
    by (vm_compute; reflexivity).
  assert (Cases.old_file <> path_join (model_dir (Demo.handle "5f2a")) "model.zip") as H3.
  { apply (bool_decide_unpack _). vm_compute. exact I. }
  split; [exact H2|]. split; [exact H3|].
  exact (download_model_keeps_unlisted Witness.good_env (Demo.handle "5f2a") (Member TF)
           true Cases.stale Cases.refreshed _ Cases.old_file _ refreshed_run H2 H3
           old_file_unlisted).
Defined.

Lemma load_tf_model_calls_witness :
  trace (load_tf_model Witness.good_env (Demo.handle "5f2a") false true Demo.empty_world).2
  = [EGet (url (_model_url_and_hash (Demo.handle "5f2a")));
     EExtract (path_join (model_dir (Demo.handle "5f2a")) "model.zip")
       (model_dir (Demo.handle "5f2a"));
     ESavedModelLoad (path_join (model_dir (Demo.handle "5f2a")) "saved_model")].
Proof.
  pose proof (load_tf_model_calls Witness.good_env (Demo.handle "5f2a") false true
                Demo.empty_world) as H.
  cbv zeta in H. destruct H as (_ & _ & evs & Ht & Hcase).
  change (false || negb (FS.exists_ (fs Demo.empty_world) (model_dir (Demo.handle "5f2a"))))
    with true in Hcase.
  destruct Hcase as [Hevs|[_ [e He]]].
  - rewrite Ht, Hevs. reflexivity.
  - vm_compute in He. discriminate He.
Defined.

Lemma load_tf_model_forced_failure_witness :
  FS.wf (fs Witness.populated)
  /\ fs Witness.populated !! model_dir (Demo.handle "ffff") = Some FS.Dir
  /\ load_tf_model Witness.bad_env (Demo.handle "ffff") true true Witness.populated
     = (inl (RuntimeError (ChecksumMismatch "5f2a" (JStr "ffff"))), Cases.lost)
  /\ fs Cases.lost !! model_dir (Demo.handle "ffff") = None.
Proof.
  assert (FS.wf (fs Witness.populated)) as H1.
  { unfold FS.wf. apply (bool_decide_unpack _). vm_compute. exact I. }
  assert (fs Witness.populated !! model_dir (Demo.handle "ffff") = Some FS.Dir) as H2
    by (vm_compute; reflexivity).
  assert (download_model Witness.bad_env (Demo.handle "ffff") (Member TF) true
            Witness.populated
          = (inl (RuntimeError (ChecksumMismatch "5f2a" (JStr "ffff"))), Cases.lost)) as H3
    by (vm_compute; reflexivity).
  split; [exact H1|]. split; [exact H2|].
  destruct (load_tf_model_forced_failure Witness.bad_env (Demo.handle "ffff") true
              Witness.populated Cases.lost _ H1 H2 H3) as [Hrun Hgone].
  split; [exact Hrun|]. apply Hgone. reflexivity.
Defined.

Lemma resolve_returns_witness :
  _get_model_url_and_hash Witness.good_env "key" None Demo.empty_world
  = (inr {| url := JStr "https://storage.example/model.zip"; checksum := JStr "5f2a" |},
     log (EPost "https://api.datature.io/hub" (api_params "key" None)) Demo.empty_world).
Proof.
  apply (proj2 (resolve_returns Witness.good_env "key" None Demo.empty_world _ _)).
  exists "https://api.datature.io/hub"%string, Cases.ready_response,
    [ ("status"%string, JStr "ready");
      ("projectSecretNeeded"%string, JBool false);
      ("signedUrl"%string, JStr "https://storage.example/model.zip");
      ("hash"%string, JStr "5f2a") ], (JBool false).
  repeat split; reflexivity.
Defined.

Lemma resolve_missing_field_witness :
  _get_model_url_and_hash Cases.nohash_env "key" None Demo.empty_world
  = (inl (KeyError "hash"),
     log (EPost "https://api.datature.io/hub" (api_params "key" None)) Demo.empty_world).
Proof.
  refine (resolve_missing_field Cases.nohash_env "key" None Demo.empty_world
            "https://api.datature.io/hub" Cases.nohash_response
            [ ("status"%string, JStr "ready");
              ("projectSecretNeeded"%string, JBool false);
              ("signedUrl"%string, JStr "https://storage.example/model.zip") ]
            eq_refl eq_refl eq_refl eq_refl
            ["status"; "projectSecretNeeded"; "signedUrl"]%string "hash"%string []
            eq_refl _ _ eq_refl).
  - intros k Hk.
    repeat (apply elem_of_cons in Hk as [->|Hk]; [eexists; reflexivity|]).
    by apply elem_of_nil in Hk.
  - intros _. reflexivity.
Defined.







Lemma load_image_dimensions_memoised_witness :
  dims_from_config Cases.image_env (fs Witness.populated)
    (path_join (model_dir (Demo.handle "5f2a")) "pipeline.config") = inr (320, 640)
  /\ forall later_path later,
       load_image_with_model_dimensions Cases.image_env 0%nat
         (set_height_width_cache (320, 640) (Demo.handle "5f2a")) later_path later
       = ((load_image Cases.image_env later_path 320 640 later).1, later).
Proof.
  assert (dims_from_config Cases.image_env (fs Witness.populated)
            (path_join (model_dir (Demo.handle "5f2a")) "pipeline.config") = inr (320, 640))
    as H1 by (vm_compute; reflexivity).
  split; [exact H1|].
  refine (proj2 (proj2 (load_image_dimensions_memoised Cases.image_env 0%nat
                          (Demo.handle "5f2a") [] Witness.populated (320, 640)
                          eq_refl _ _ H1))).
  - vm_compute; reflexivity.
  - vm_compute; reflexivity.
Defined.

Lemma load_image_dimensions_unread_witness :
  (get_pipeline_config_dir (Demo.handle "5f2a") Demo.empty_world).1
  = inl (FileNotFoundError (never_downloaded_message "key"))
  /\ load_image_with_model_dimensions Cases.image_env 0%nat (Demo.handle "5f2a")
       ["cat.png"%string] Demo.empty_world
     = (inl (FileNotFoundError (never_downloaded_message "key")), Demo.empty_world).
Proof.
  assert ((get_pipeline_config_dir (Demo.handle "5f2a") Demo.empty_world).1
          = inl (FileNotFoundError (never_downloaded_message "key"))) as H1
    by (vm_compute; reflexivity).
  split; [exact H1|].
  exact (load_image_dimensions_unread Cases.image_env 0%nat (Demo.handle "5f2a")
           ["cat.png"%string] Demo.empty_world _ eq_refl (or_introl H1)).
Defined.
